(** * slackChat: the mention-driven turn pipeline of [main.py]

    A shallow embedding of the three functions of [main.py]
    ([save_conversation], [handle_app_mention_events], [slack_bot]) and the
    properties of the request-to-reply cycle.

    Conventions of the embedding.
    - A Python [str] is a [string]: its UTF-8 bytes.  The only pattern the
      program matches, [<@[a-zA-Z0-9]{11}>], is pure ASCII, and no byte of a
      multi-byte UTF-8 sequence is an ASCII byte, so matching on bytes and on
      code points agree.
    - A parsed JSON document is a [json]; a Python [dict] is a [gmap].
    - The services and libraries the program calls (the agent, Firestore,
      the reply function [say], the clock, [json.dumps], the Bolt adapter,
      the key table of [Box]) are the fields of an [Env]; every theorem
      holds for all of them.
    - Code runs in the monad [M]: a state (the Firestore collection, the
      clock, the log of calls made to the services) threaded through a
      computation that returns a value or raises.
    - [logging] calls neither fail nor change what is computed; they are
      left out. *)

From Stdlib Require Import ZArith Ascii String Lia.
From stdpp Require Import base option list strings gmap.

Local Open Scope Z_scope.

(** ** Text and the mention pattern *)

Module Mention.

(** The character class [[a-zA-Z0-9]]. *)
Definition is_alnum (c : ascii) : bool :=
  let n := N_of_ascii c in
  ((48 <=? n) && (n <=? 57) || (65 <=? n) && (n <=? 90) ||
   (97 <=? n) && (n <=? 122))%N.

(** [[a-zA-Z0-9]{n}] at the head of [s]: the rest of [s] after [n] such
    characters. *)
Fixpoint match_alnums (n : nat) (s : string) : option string :=
  match n with
  | O => Some s
  | S k =>
      match s with
      | String c s' => if is_alnum c then match_alnums k s' else None
      | EmptyString => None
      end
  end.

(** The pattern [<@[a-zA-Z0-9]{11}>] at the head of [s]: the rest of [s]
    after the match.  The pattern has no alternative and no repetition of
    variable length, so a match at a position is unique and 14 characters
    long. *)
Definition match_token (s : string) : option string :=
  match s with
  | String "<" (String "@" s1) =>
      match match_alnums 11 s1 with
      | Some (String ">" rest) => Some rest
      | _ => None
      end
  | _ => None
  end.

(** [re.sub("<@[a-zA-Z0-9]{11}>", "", text)], scanning left to right: at a
    position where the pattern matches, the 14 matched characters are dropped
    and the scan resumes after them; elsewhere the character is kept and the
    scan moves on by one.  [skip] counts the characters of the current match
    that are still to drop. *)
Fixpoint sub_from (skip : nat) (s : string) : string :=
  match s with
  | EmptyString => EmptyString
  | String c s' =>
      match skip with
      | S k => sub_from k s'
      | O =>
          match match_token s with
          | Some _ => sub_from 13 s'
          | None => String c (sub_from 0 s')
          end
      end
  end.

Definition re_sub (text : string) : string := sub_from 0 text.

(** A mention token: a string the pattern matches as a whole. *)
Definition is_token (t : string) : Prop := match_token t = Some EmptyString.

(** Does the pattern match somewhere in [s]? ([re.search] is not [None].) *)
Fixpoint has_token (s : string) : bool :=
  match s with
  | EmptyString => false
  | String _ s' => bool_decide (is_Some (match_token s)) || has_token s'
  end.

(** The same, as a statement about substrings. *)
Definition contains_token (s : string) : Prop :=
  ∃ p t q, s = p +:+ t +:+ q ∧ is_token t.

(** What one pass removes: [removes_tokens text out] cuts [text] into
    token-free pieces separated by tokens, and [out] is the pieces put back
    together in their order. *)
Inductive removes_tokens : string → string → Prop :=
| rt_done p :
    has_token p = false → removes_tokens p p
| rt_token p t rest out :
    has_token p = false → is_token t → removes_tokens rest out →
    removes_tokens (p +:+ t +:+ rest) (p +:+ out).

(** The characters of a string, for statements about order. *)
Definition chars (s : string) : list ascii := list_ascii_of_string s.

(** Every [<] of [s] starts a mention token. *)
Fixpoint mentions_only (s : string) : bool :=
  match s with
  | EmptyString => true
  | String c s' =>
      (negb (Ascii.eqb c "<") || bool_decide (is_Some (match_token s)))
      && mentions_only s'
  end.

End Mention.

(** ** Values, exceptions and the services *)

(** A parsed JSON document, as [request.get_json()] and the Bolt adapter
    hand it to the program.  A float is kept as its [repr]. *)
#[warnings="-register-all"]
Inductive json : Type :=
| JNull
| JBool (b : bool)
| JInt (n : Z)
| JFloat (repr : string)
| JString (s : string)
| JArray (xs : list json)
| JObject (kvs : gmap string json).

(** The exceptions that reach the program.  [ServiceError] stands for
    whatever a service raises (a rate limit, a network failure, a refused
    write). *)
Inductive exn : Type :=
| BoxKeyError (item : string)
| AttributeError (attr : string)
| KeyError (key : string)
| TypeError
| ValueError
| ServiceError (what : string).

Inductive result (A : Type) : Type :=
| Ok (a : A)
| Raise (e : exn).
Arguments Ok {A} a.
Arguments Raise {A} e.

(** One turn of a conversation and the document [save_conversation]
    writes.  A [datetime] is a count of microseconds. *)
Record Entry : Type := {
  input : string;
  response : string;
  timestamp : Z
}.

Record Document : Type := {
  history : list Entry
}.

(** A call made to a service, in the order of the calls. *)
Inductive Call : Type :=
| AgentRun (input_text : string)
| FirestoreSet (id : string) (data : Document)
| Say (text : string).

(** The inbound HTTP request: [request.headers] and what
    [request.get_json()] does. *)
Record Request : Type := {
  headers : list (string * string);
  get_json : result json
}.

(** The services.  Each answer may depend on the calls made so far: the
    agent keeps a memory, the database and the chat platform have a state
    of their own. *)
Record Env : Type := {
  (** [agent.run(input=...)]: the answer, or the exception it raises *)
  agent_run : list Call → string → result string;
  (** the exception, if any, with which Firestore refuses a write *)
  firestore_refuses : list Call → string → Document → option exn;
  (** the identifier [document(None)] draws *)
  auto_id : list Call → string;
  (** the exception, if any, with which [say] fails *)
  say_refuses : list Call → string → option exn;
  (** the n-th reading of [datetime.datetime.now()] *)
  now : nat → Z;
  (** [json.dumps] *)
  json_dumps : json → string;
  (** the table of attribute-safe keys of the [Box] made from a dict
      ([conversion_box], on by default): the key it holds for an attribute
      name, if any *)
  safe_keys : gmap string json → string → option string;
  (** the exception, if any, with which the Firestore client refuses an
      identifier as a document of the collection (a path with an odd number
      of elements, as for [a/b]) *)
  document_refuses : string → option exn;
  (** does the Bolt adapter accept the request and route it to the
      listener of [message] events? *)
  bolt_routes : Request → bool
}.

(** The state a computation threads: the [testChat] collection, the number
    of clock readings taken, and the calls made. *)
Record State : Type := {
  db : gmap string Document;
  reads : nat;
  calls : list Call
}.

(** ** The monad *)

Definition M (A : Type) : Type := State → result A * State.

Definition ret {A} (a : A) : M A := λ s, (Ok a, s).

Definition raise {A} (e : exn) : M A := λ s, (Raise e, s).

Definition bind {A B} (m : M A) (k : A → M B) : M B :=
  λ s, match m s with
       | (Ok a, s') => k a s'
       | (Raise e, s') => (Raise e, s')
       end.

Definition lift {A} (r : result A) : M A := λ s, (r, s).

Declare Scope M_scope.
Delimit Scope M_scope with M.
Notation "x <- m ;; k" := (bind m (λ x, k))
  (at level 100, m at next level, right associativity) : M_scope.
Notation "m ;;; k" := (bind m (λ _, k))
  (at level 100, right associativity) : M_scope.

(** The same for code that only computes. *)
Definition rbind {A B} (r : result A) (k : A → result B) : result B :=
  match r with
  | Ok a => k a
  | Raise e => Raise e
  end.

Declare Scope result_scope.
Delimit Scope result_scope with R.
Notation "x <- r ;; k" := (rbind r (λ x, k))
  (at level 100, r at next level, right associativity) : result_scope.

(** ** Python and library operations *)

(** What attribute access finds in a [Box] made from the dict [d]: the
    value under the key of that name; without such a key, the value under
    the key that the table of attribute-safe keys holds for the name. *)
Definition box_lookup (env : Env) (d : gmap string json) (item : string)
  : option json :=
  match d !! item with
  | Some v => Some v
  | None => k ← safe_keys env d item; d !! k
  end.

(** Attribute access on a [Box]: the value found, itself boxed when it is a
    dict.  When nothing is found [BoxKeyError] is raised; a value that is
    no dict has no such attribute. *)
Definition box_getattr (env : Env) (box : json) (item : string)
  : result json :=
  match box with
  | JObject d =>
      match box_lookup env d item with
      | Some v => Ok v
      | None => Raise (BoxKeyError item)
      end
  | _ => Raise (AttributeError item)
  end.

(** [re.sub("<@[a-zA-Z0-9]{11}>", "", text)] on a Python value: only a
    [str] is accepted. *)
Definition re_sub (text : json) : result string :=
  match text with
  | JString s => Ok (Mention.re_sub s)
  | _ => Raise TypeError
  end.

(** [body.get(key)]: [None] for a missing key; only a dict has [get]. *)
Definition dict_get (body : json) (key : string) : result (option json) :=
  match body with
  | JObject d => Ok (d !! key)
  | _ => Raise (AttributeError "get")
  end.

(** [body[key]] after [body.get] has succeeded. *)
Definition subscript (body : json) (key : string) : result json :=
  match body with
  | JObject d =>
      match d !! key with
      | Some v => Ok v
      | None => Raise (KeyError key)
      end
  | _ => Raise TypeError
  end.

(** [v == s] for the result [v] of [body.get] and a string literal [s]. *)
Definition eq_str (v : option json) (s : string) : bool :=
  match v with
  | Some (JString s') => String.eqb s' s
  | _ => false
  end.

(** Lower case of an ASCII letter. *)
Definition lower (c : ascii) : ascii :=
  let n := N_of_ascii c in
  if ((65 <=? n) && (n <=? 90))%N then ascii_of_N (n + 32) else c.

Fixpoint lowercase (s : string) : string :=
  match s with
  | EmptyString => EmptyString
  | String c s' => String (lower c) (lowercase s')
  end.

(** [request.headers.get(key)]: header names compare without case. *)
Definition headers_get (h : list (string * string)) (key : string)
  : option string :=
  snd <$> List.find (λ kv, String.eqb (lowercase kv.1) (lowercase key)) h.

(** Truth value of [header.get(...)]: [None] and the empty string are
    false. *)
Definition truthy (v : option string) : bool :=
  match v with
  | Some (String _ _) => true
  | _ => false
  end.

(** The response of the Bolt adapter, as far as the program decides it:
    either the adapter answered on its own and no listener ran, or the
    listener of [message] events ran with this outcome. *)
Inductive BoltResponse : Type :=
| NotRouted
| ListenerRan (outcome : result unit).

(** What [slack_bot] returns: the tuple of the handshake, the dict of the
    retry acknowledgment, or the response of the Bolt adapter. *)
Inductive Returned : Type :=
| RTuple (res : string) (status : Z) (hdrs : gmap string string)
| RDict (d : gmap string json)
| RBolt (r : BoltResponse).

(** ** The program *)

Section Program.

Variable env : Env.

Local Open Scope M_scope.

Definition log (c : Call) (s : State) : State :=
  {| db := db s; reads := reads s; calls := calls s ++ [c] |}.

(** [db.collection("testChat").document(user)]: the identifier of the
    document.  The client checks the path [testChat/user] and raises when
    it is not the path of a document; [None] draws a fresh identifier; no
    other value than a [str] is a path element. *)
Definition document (user : json) : M string :=
  match user with
  | JString id =>
      match document_refuses env id with
      | Some e => raise e
      | None => ret id
      end
  | JNull => λ s, (Ok (auto_id env (calls s)), s)
  | _ => raise TypeError
  end.

(** [datetime.datetime.now()]: the next reading of the clock. *)
Definition datetime_now : M Z :=
  λ s, (Ok (now env (reads s)),
        {| db := db s; reads := S (reads s); calls := calls s |}).

(** [doc_ref.set(data)], without [merge]: the document under [id] becomes
    [data], unless Firestore refuses the write. *)
Definition doc_ref_set (id : string) (data : Document) : M unit :=
  λ s, match firestore_refuses env (calls s) id data with
       | Some e => (Raise e, log (FirestoreSet id data) s)
       | None =>
           (Ok tt,
            {| db := <[id := data]> (db s);
               reads := reads s;
               calls := calls s ++ [FirestoreSet id data] |})
       end.

(** [save_conversation], lines 64 to 89.  The dict literal is evaluated
    before [set] is called, its two entries in their order: the clock is
    read once for each. *)
Definition save_conversation (user : json) (user_input bot_output : string)
  : M unit :=
  doc_ref <- document user ;;
  t1 <- datetime_now ;;
  t2 <- datetime_now ;;
  doc_ref_set doc_ref
    {| history :=
         [ {| input := user_input; response := bot_output; timestamp := t1 |};
           {| input := user_input; response := bot_output; timestamp := t2 |}
         ] |}.

(** [agent.run(input=only_text)]. *)
Definition agent_run_call (only_text : string) : M string :=
  λ s, (agent_run env (calls s) only_text, log (AgentRun only_text) s).

(** [say(text)]. *)
Definition say (text : string) : M unit :=
  λ s, (match say_refuses env (calls s) text with
        | Some e => Raise e
        | None => Ok tt
        end, log (Say text) s).

(** [handle_app_mention_events], lines 94 to 118. *)
Definition handle_app_mention_events (body : gmap string json) : M unit :=
  let box := JObject body in
  event <- lift (box_getattr env box "event") ;;
  user <- lift (box_getattr env event "user") ;;
  event <- lift (box_getattr env box "event") ;;
  text <- lift (box_getattr env event "text") ;;
  only_text <- lift (re_sub text) ;;
  openai_response <- agent_run_call only_text ;;
  save_conversation user only_text openai_response ;;;
  say openai_response.

(** [handler.handle(request)]: the Bolt adapter checks the request and, for
    a [message] event, runs the listener on the body before it responds
    ([process_before_response=True]).  An exception of the listener ends up
    in the adapter's response. *)
Definition handler_handle (request : Request) : M BoltResponse :=
  match get_json request with
  | Ok (JObject body) =>
      if bolt_routes env request then
        λ s, let '(r, s') := handle_app_mention_events body s in
             (Ok (ListenerRan r), s')
      else ret NotRouted
  | _ => ret NotRouted
  end.

(** [slack_bot], lines 125 to 152. *)
Definition slack_bot (request : Request) : M Returned :=
  let header := headers request in
  body <- lift (get_json request) ;;
  type <- lift (dict_get body "type") ;;
  if eq_str type "url_verification" then
    challenge <- lift (subscript body "challenge") ;;
    let headers : gmap string string :=
      {[ "Content-Type" := "application/json" ]} in
    let res := json_dumps env (JObject {[ "challenge" := challenge ]}) in
    ret (RTuple res 200 headers)
  else if truthy (headers_get header "x-slack-retry-num") then
    ret (RDict
           {[ "statusCode" := JInt 200;
              "body" := JString (json_dumps env
                          (JObject {[ "message" :=
                                        JString "No need to resend" ]})) ]})
  else
    r <- handler_handle request ;;
    ret (RBolt r).

End Program.

(** ** The Event Normalizer *)

(** Lines 103 to 106 on their own: the user and the text of the event, the
    text with its mention tokens removed. *)
Definition normalize (env : Env) (body : gmap string json)
  : result (json * string) :=
  (let box := JObject body in
   event <- box_getattr env box "event" ;;
   user <- box_getattr env event "user" ;;
   event <- box_getattr env box "event" ;;
   text <- box_getattr env event "text" ;;
   only_text <- re_sub text ;;
   Ok (user, only_text))%R.

(** The calls a computation adds to the log. *)
Definition calls_of {A} (m : M A) (s : State) : list Call :=
  drop (length (calls s)) (calls (m s).2).

(** The step of the turn a call belongs to. *)
Inductive Step : Type := StepAgent | StepStore | StepReply.

Definition step_of (c : Call) : Step :=
  match c with
  | AgentRun _ => StepAgent
  | FirestoreSet _ _ => StepStore
  | Say _ => StepReply
  end.

(** What the spec calls [MalformedEventError]: the exceptions with which a
    missing field of the event shows. *)
Definition MalformedEventError (e : exn) : Prop :=
  match e with
  | BoxKeyError _ | AttributeError _ => True
  | _ => False
  end.

(** The field [event.field] of a body, when the body has one. *)
Definition event_field (body : gmap string json) (field : string)
  : option json :=
  match body !! "event" with
  | Some (JObject event) => event !! field
  | _ => None
  end.

(** What [box.event.field] finds, the keys that [Box] converts included. *)
Definition event_attr (env : Env) (body : gmap string json) (field : string)
  : option json :=
  match box_lookup env body "event" with
  | Some (JObject event) => box_lookup env event field
  | _ => None
  end.

(** The number of [/] in an identifier. *)
Fixpoint slashes (id : string) : nat :=
  match id with
  | EmptyString => O
  | String c id' => ((if Ascii.eqb c "/" then 1 else 0) + slashes id')%nat
  end.

(** The path check of the Firestore client on [testChat/id]: a document
    path has an even number of elements. *)
Definition path_check (id : string) : option exn :=
  if Nat.even (slashes id) then None else Some ValueError.

(** A table of attribute-safe keys that holds, as the one of [Box] does,
    the key [item!] for the attribute name [item]. *)
Definition bang_keys (d : gmap string json) (item : string) : option string :=
  if bool_decide (is_Some (d !! (item +:+ "!"))) then Some (item +:+ "!")
  else None.

(** The document [save_conversation] builds when the clock has been read
    [n] times. *)
Definition conversation (env : Env) (n : nat) (user_input bot_output : string)
  : Document :=
  {| history :=
       [ {| input := user_input; response := bot_output;
            timestamp := now env n |};
         {| input := user_input; response := bot_output;
            timestamp := now env (S n) |} ] |}.

(** What [document(user)] returns or raises when the calls [cs] have been
    made. *)
Definition document_id (env : Env) (user : json) (cs : list Call)
  : result string :=
  match user with
  | JString id =>
      match document_refuses env id with
      | Some e => Raise e
      | None => Ok id
      end
  | JNull => Ok (auto_id env cs)
  | _ => Raise TypeError
  end.

(** The acknowledgment of a retried delivery. *)
Definition no_need_to_resend (env : Env) : gmap string json :=
  {[ "statusCode" := JInt 200;
     "body" := JString (json_dumps env
                 (JObject {[ "message" := JString "No need to resend" ]})) ]}.

(** ** Sample inputs *)

Module Sample.

(** Services that never fail, with a clock that advances by one microsecond
    at each reading. *)
Definition env : Env :=
  {| agent_run := λ _ _, Ok "konnichiwa";
     firestore_refuses := λ _ _ _, None;
     auto_id := λ _, "auto";
     say_refuses := λ _ _, None;
     now := λ n, Z.of_nat n;
     json_dumps := λ _, "{}";
     safe_keys := bang_keys;
     document_refuses := path_check;
     bolt_routes := λ _, true |}.

(** An agent that fails. *)
Definition env_agent_down : Env :=
  {| agent_run := λ _ _, Raise (ServiceError "rate limit");
     firestore_refuses := λ _ _ _, None;
     auto_id := λ _, "auto";
     say_refuses := λ _ _, None;
     now := λ n, Z.of_nat n;
     json_dumps := λ _, "{}";
     safe_keys := bang_keys;
     document_refuses := path_check;
     bolt_routes := λ _, true |}.

Definition start : State := {| db := ∅; reads := 0; calls := [] |}.

(** A state in which the user already has a document. *)
Definition used : State :=
  {| db := {[ "U123" := {| history := [ {| input := "a"; response := "b";
                                           timestamp := 7 |} ] |} ]};
     reads := 4;
     calls := [] |}.

(** The event of the scenario of the spec: the token has 10 characters
    between [<@] and [>]. *)
Definition scenario : gmap string json :=
  {[ "event" := JObject {[ "user" := JString "U123";
                           "text" := JString "<@U0XXXXXXXX> hello" ]} ]}.

(** The same with a mention of 11 characters. *)
Definition scenario11 : gmap string json :=
  {[ "event" := JObject {[ "user" := JString "U123";
                           "text" := JString "<@U0XXXXXXXXX> hello" ]} ]}.

(** An event without [user]. *)
Definition no_user : gmap string json :=
  {[ "event" := JObject {[ "text" := JString "hello" ]} ]}.

(** An event whose user is under the key [user!]. *)
Definition user_bang : gmap string json :=
  {[ "event" := JObject {[ "user!" := JString "U123";
                           "text" := JString "hi" ]} ]}.

(** A retried delivery whose body is a JSON array. *)
Definition retried_array : Request :=
  {| headers := [("X-Slack-Retry-Num", "1")];
     get_json := Ok (JArray [JString "event_callback"]) |}.

(** An empty retry header on a body that is a JSON array. *)
Definition empty_retry_array : Request :=
  {| headers := [("X-Slack-Retry-Num", "")];
     get_json := Ok (JArray [JString "event_callback"]) |}.

(** A handshake that also carries the retry header. *)
Definition handshake : Request :=
  {| headers := [("X-Slack-Retry-Num", "1")];
     get_json := Ok (JObject {[ "type" := JString "url_verification";
                                "challenge" := JString "3eZbrw1aB" ]}) |}.

(** A handshake without [challenge]. *)
Definition handshake_no_challenge : Request :=
  {| headers := [];
     get_json := Ok (JObject {[ "type" := JString "url_verification" ]}) |}.

Definition message : json :=
  JObject {[ "type" := JString "event_callback";
             "event" := JObject {[ "type" := JString "message";
                                   "user" := JString "U123";
                                   "text" := JString "hello" ]} ]}.

(** A retried delivery of a message. *)
Definition retried : Request :=
  {| headers := [("Content-Type", "application/json");
                 ("X-Slack-Retry-Num", "1")];
     get_json := Ok message |}.

(** A message whose retry header is there and empty. *)
Definition empty_retry : Request :=
  {| headers := [("X-Slack-Retry-Num", "")];
     get_json := Ok message |}.

End Sample.

(** ** Words, stores and sequences of requests *)

(** A string of characters of the class [[a-zA-Z0-9]]. *)
Fixpoint all_alnum (w : string) : bool :=
  match w with
  | EmptyString => true
  | String c w' => Mention.is_alnum c && all_alnum w'
  end.

(** The markup of a mention of the identifier [w]. *)
Definition mention (w : string) : string := "<@" +:+ w +:+ ">".

(** Every document of the collection has the shape [save_conversation]
    writes: a [history] of two entries that agree on input and response. *)
Definition one_turn (d : Document) : Prop :=
  ∃ e1 e2, history d = [e1; e2] ∧
           input e1 = input e2 ∧ response e1 = response e2.

Definition one_turn_each (store : gmap string Document) : Prop :=
  ∀ id d, store !! id = Some d → one_turn d.

(** The function instance serving requests one after the other: each
    request runs [slack_bot] on the state the one before has left, whatever
    it returned or raised. *)
Definition serve (env : Env) (requests : list Request) (s : State) : State :=
  foldl (λ s request, (slack_bot env request s).2) s requests.

(** The calls of the agent in a log. *)
Definition agent_calls (cs : list Call) : list string :=
  omap (λ c, match c with AgentRun t => Some t | _ => None end) cs.

(** Services of which only the reply fails. *)
Definition env_reply_down : Env :=
  {| agent_run := λ _ _, Ok "konnichiwa";
     firestore_refuses := λ _ _ _, None;
     auto_id := λ _, "auto";
     say_refuses := λ _ _, Some (ServiceError "channel_not_found");
     now := λ n, Z.of_nat n;
     json_dumps := λ _, "{}";
     safe_keys := bang_keys;
     document_refuses := path_check;
     bolt_routes := λ _, true |}.

(** A second delivery of the sample message, without the retry header. *)
Definition replayed : Request :=
  {| headers := [("Content-Type", "application/json")];
     get_json := Ok Sample.message |}.

(** A body that is a JSON array, with the retry header. *)
Definition array_body : Request :=
  {| headers := [("X-Slack-Retry-Num", "2")];
     get_json := Ok (JArray []) |}.

(** An event whose text is not a string. *)
Definition text_null : gmap string json :=
  {[ "event" := JObject {[ "user" := JString "U123"; "text" := JNull ]} ]}.

(** ** Proof automation *)

(** Reads off the calls a run has added to the log. *)
Ltac calls_done :=
  cbn [calls snd fst];
  rewrite <-?(assoc_L (++)); cbn [app];
  rewrite ?drop_app_length, ?drop_all.

(** * Properties *)

(** ** Strings *)

Local Arguments String.append !_ _ / : simpl nomatch.

Lemma append_nil_r (s : string) : s +:+ "" = s.
Proof. induction s as [|c s IH]; simpl; [done | by rewrite IH]. Qed.

Lemma append_assoc (s1 s2 s3 : string) :
  (s1 +:+ s2) +:+ s3 = s1 +:+ s2 +:+ s3.
Proof. induction s1 as [|c s1 IH]; simpl; [done | by rewrite IH]. Qed.

Lemma length_append (s1 s2 : string) :
  String.length (s1 +:+ s2) = (String.length s1 + String.length s2)%nat.
Proof. induction s1 as [|c s1 IH]; simpl; [done | by rewrite IH]. Qed.

Lemma chars_append (s1 s2 : string) :
  Mention.chars (s1 +:+ s2) = Mention.chars s1 ++ Mention.chars s2.
Proof.
  unfold Mention.chars.
  induction s1 as [|c s1 IH]; simpl; [done | by rewrite IH].
Qed.

(** ** The mention pattern *)

Module MentionFacts.
Import Mention.

Lemma match_alnums_split (n : nat) (s rest : string) :
  match_alnums n s = Some rest →
  ∃ t, s = t +:+ rest ∧ String.length t = n ∧ match_alnums n t = Some "".
Proof.
  revert s. induction n as [|n IH]; intros s H; simpl in H.
  - exists "". by simplify_eq.
  - destruct s as [|c s]; [done|].
    destruct (is_alnum c) eqn:Hc; [|done].
    destruct (IH _ H) as (t & -> & Hlen & Ht).
    exists (String c t). simpl. rewrite Hc, Hlen. done.
Qed.

Lemma match_alnums_append (n : nat) (s rest x : string) :
  match_alnums n s = Some rest → match_alnums n (s +:+ x) = Some (rest +:+ x).
Proof.
  revert s. induction n as [|n IH]; intros s H; simpl in *.
  - by simplify_eq.
  - destruct s as [|c s]; [done|]. simpl.
    destruct (is_alnum c); [by apply IH | done].
Qed.

(** A match is a token followed by the rest, and a token has 14
    characters. *)
Lemma match_token_split (s rest : string) :
  match_token s = Some rest →
  ∃ t, s = t +:+ rest ∧ is_token t ∧ String.length t = 14%nat.
Proof.
  unfold is_token, match_token. intros H.
  destruct s as [|c0 [|c1 s1]]; try done;
    [destruct c0 as [[] [] [] [] [] [] [] []]; done|].
  destruct (Ascii.eqb_spec c0 "<") as [->|Hc0];
    [|destruct c0 as [[] [] [] [] [] [] [] []]; done].
  destruct (Ascii.eqb_spec c1 "@") as [->|Hc1];
    [|destruct c1 as [[] [] [] [] [] [] [] []]; done].
  destruct (match_alnums 11 s1) as [[|c2 r]|] eqn:Hm; try done.
  destruct (Ascii.eqb_spec c2 ">") as [->|Hc2];
    [|destruct c2 as [[] [] [] [] [] [] [] []]; done].
  simplify_eq.
  destruct (match_alnums_split _ _ _ Hm) as (t & -> & Hlen & Ht).
  exists (String "<" (String "@" (t +:+ ">"))). split_and!.
  - simpl. by rewrite append_assoc.
  - by rewrite (match_alnums_append _ _ _ ">" Ht).
  - simpl. rewrite length_append, Hlen. done.
Qed.

(** A match does not look past its own characters. *)
Lemma match_token_append (s rest x : string) :
  match_token s = Some rest → match_token (s +:+ x) = Some (rest +:+ x).
Proof.
  intros H. destruct (match_token_split _ _ H) as (t & -> & Ht & _).
  clear H. unfold is_token, match_token in *.
  destruct t as [|c0 [|c1 t1]]; try done;
    [destruct c0 as [[] [] [] [] [] [] [] []]; done|].
  destruct (Ascii.eqb_spec c0 "<") as [->|Hc0];
    [|destruct c0 as [[] [] [] [] [] [] [] []]; done].
  destruct (Ascii.eqb_spec c1 "@") as [->|Hc1];
    [|destruct c1 as [[] [] [] [] [] [] [] []]; done].
  destruct (match_alnums 11 t1) as [[|c2 r]|] eqn:Hm; try done.
  destruct (Ascii.eqb_spec c2 ">") as [->|Hc2];
    [|destruct c2 as [[] [] [] [] [] [] [] []]; done].
  simplify_eq. rewrite append_assoc. cbn [String.append].
  by rewrite (match_alnums_append _ _ _ (rest +:+ x) Hm).
Qed.

Lemma match_token_of_token (t rest : string) :
  is_token t → match_token (t +:+ rest) = Some rest.
Proof. intros Ht. by rewrite (match_token_append _ _ rest Ht). Qed.

(** A match starts with [<]. *)
Lemma match_token_head (c : ascii) (s : string) :
  is_Some (match_token (String c s)) → c = "<"%char.
Proof.
  intros [r H]. unfold match_token in H.
  destruct (Ascii.eqb_spec c "<") as [->|Hc]; [done|].
  destruct c as [[] [] [] [] [] [] [] []]; destruct s; done.
Qed.

(** Dropping the characters of a match. *)
Lemma sub_from_skip (t rest : string) :
  sub_from (String.length t) (t +:+ rest) = sub_from 0 rest.
Proof. induction t as [|c t IH]; simpl; [done | by rewrite IH]. Qed.

(** The scan, one position at a time: at a match the scan resumes after the
    match; elsewhere the character is kept. *)
Lemma re_sub_cons (c : ascii) (s : string) :
  re_sub (String c s) =
    match match_token (String c s) with
    | Some rest => re_sub rest
    | None => String c (re_sub s)
    end.
Proof.
  unfold re_sub at 1. cbn [sub_from].
  destruct (match_token (String c s)) as [rest|] eqn:Hm; [|done].
  destruct (match_token_split _ _ Hm) as (t & Hs & _ & Hlen).
  destruct t as [|c' t']; [done|]. simpl in Hs, Hlen. simplify_eq.
  assert (String.length t' = 13%nat) as <- by lia.
  apply sub_from_skip.
Qed.

Lemma re_sub_nil : re_sub "" = "".
Proof. done. Qed.

Lemma has_token_cons (c : ascii) (s : string) :
  has_token (String c s) = false ↔
  match_token (String c s) = None ∧ has_token s = false.
Proof.
  cbn [has_token]. rewrite orb_false_iff, bool_decide_eq_false.
  rewrite <-eq_None_not_Some. done.
Qed.

(** [has_token] decides [contains_token]. *)
Lemma has_token_spec (s : string) : has_token s = true ↔ contains_token s.
Proof.
  split.
  - induction s as [|c s IH]; [done|]. cbn [has_token].
    rewrite orb_true_iff, bool_decide_eq_true. intros [[r Hr]|Hs].
    + destruct (match_token_split _ _ Hr) as (t & Hs & Ht & _).
      exists "", t, r. done.
    + destruct (IH Hs) as (p & t & q & -> & Ht).
      exists (String c p), t, q. done.
  - intros (p & t & q & -> & Ht).
    induction p as [|c p IH]; cbn [String.append].
    + destruct t as [|c t]; [done|].
      pose proof (match_token_of_token _ q Ht) as Hm.
      cbn [String.append] in Hm |- *. cbn [has_token]. rewrite Hm.
      rewrite bool_decide_eq_true_2; [done | by eexists].
    + cbn [has_token]. rewrite IH. apply orb_true_r.
Qed.

Lemma has_token_append_l (p q : string) :
  has_token (p +:+ q) = false → has_token p = false.
Proof.
  induction p as [|c p IH]; [done|]. cbn [String.append].
  rewrite !has_token_cons. intros [Hm Hp]. split; [|by apply IH].
  destruct (match_token (String c p)) as [r|] eqn:Hr; [|done].
  pose proof (match_token_append _ _ q Hr) as Hq.
  cbn [String.append] in Hq. congruence.
Qed.

(** Text without a token is returned as it is. *)
Lemma re_sub_token_free (s : string) : has_token s = false → re_sub s = s.
Proof.
  induction s as [|c s IH]; [done|].
  rewrite has_token_cons, re_sub_cons. intros [-> Hs]. by rewrite IH.
Qed.

Lemma removes_tokens_cons (c : ascii) (s out : string) :
  match_token (String c s) = None →
  removes_tokens s out → removes_tokens (String c s) (String c out).
Proof.
  intros Hm H. destruct H as [p Hp | p t rest out Hp Ht H].
  - apply rt_done. by apply has_token_cons.
  - apply (rt_token (String c p) t rest out); [|done..].
    apply has_token_cons. split; [|done].
    destruct (match_token (String c p)) as [r|] eqn:Hr; [|done].
    pose proof (match_token_append _ _ (t +:+ rest) Hr) as Hq.
    cbn [String.append] in Hq, Hm. congruence.
Qed.

(** One pass removes the tokens of the text, each where it stands, and
    keeps the pieces between them. *)
Lemma re_sub_removes (s : string) : removes_tokens s (re_sub s).
Proof.
  assert (∀ n s, (String.length s < n)%nat → removes_tokens s (re_sub s))
    as H; [|apply (H (S (String.length s))); lia].
  clear s. induction n as [|n IH]; intros s Hn; [lia|].
  destruct s as [|c s]; [by apply rt_done|].
  rewrite re_sub_cons.
  destruct (match_token (String c s)) as [rest|] eqn:Hm.
  - destruct (match_token_split _ _ Hm) as (t & Hs & Ht & Hlen).
    rewrite Hs. apply (rt_token "" t rest (re_sub rest)); [done..|].
    apply IH. rewrite Hs, length_append in Hn. lia.
  - apply removes_tokens_cons; [done|]. apply IH. simpl in Hn. lia.
Qed.

(** What is kept is kept in its order. *)
Lemma removes_tokens_sublist (s out : string) :
  removes_tokens s out → sublist (chars out) (chars s).
Proof.
  induction 1 as [p Hp | p t rest out Hp Ht H IH]; [done|].
  rewrite !chars_append. apply sublist_app; [done|].
  by apply sublist_inserts_l.
Qed.

(** A text in which every [<] starts a token comes out without [<]. *)
Lemma sub_from_mentions_only (k : nat) (s : string) :
  mentions_only s = true → "<"%char ∉ chars (sub_from k s).
Proof.
  revert k. induction s as [|c s IH]; intros k; [intros _; apply not_elem_of_nil|].
  cbn [mentions_only]. rewrite andb_true_iff, orb_true_iff.
  rewrite negb_true_iff, bool_decide_eq_true. intros [Hc Hs].
  cbn [sub_from]. destruct k as [|k]; [|by apply IH].
  destruct (match_token (String c s)) as [r|] eqn:Hr; [by apply IH|].
  destruct Hc as [Hc|[? ?]]; [|done].
  unfold chars. cbn [list_ascii_of_string]. rewrite not_elem_of_cons.
  split; [|by apply IH].
  intros <-. by rewrite Ascii.eqb_refl in Hc.
Qed.

Lemma has_token_lt (s : string) :
  has_token s = true → "<"%char ∈ chars s.
Proof.
  induction s as [|c s IH]; [done|]. cbn [has_token].
  rewrite orb_true_iff, bool_decide_eq_true.
  unfold chars. cbn [list_ascii_of_string]. rewrite elem_of_cons.
  intros [Hm|Hs]; [left | right; by apply IH].
  symmetry. by apply (match_token_head _ s).
Qed.

End MentionFacts.

(** ** Mention stripping (Event Normalizer) *)

(** C3, as the spec states it, fails: a token written around another token
    comes together when the inner one is removed.  From
    [<@<@ABCDEFGHIJK>ABCDEFGHIJK>] one pass of [re.sub] leaves
    [<@ABCDEFGHIJK>], which is a mention token. *)
Lemma re_sub_nested_leaves_token :
  Mention.re_sub "<@<@ABCDEFGHIJK>ABCDEFGHIJK>" = "<@ABCDEFGHIJK>" ∧
  Mention.is_token "<@ABCDEFGHIJK>" ∧
  Mention.contains_token (Mention.re_sub "<@<@ABCDEFGHIJK>ABCDEFGHIJK>").
Proof.
  split_and!; [reflexivity..|].
  apply MentionFacts.has_token_spec. reflexivity.
Qed.

(** C3, amended: one left-to-right pass removes every mention token that
    occurs in the raw text and nothing else, so the normalized text is the
    token-free pieces of the raw text in their order, and every character
    outside a removed token is kept in its relative order; a text without a
    token is returned unchanged.  The normalized text contains no token
    whenever every [<] of the raw text starts a token. *)
Theorem re_sub_removes_mentions (text : string) :
  Mention.removes_tokens text (Mention.re_sub text) ∧
  sublist (Mention.chars (Mention.re_sub text)) (Mention.chars text) ∧
  (¬ Mention.contains_token text → Mention.re_sub text = text) ∧
  (Mention.mentions_only text = true →
   ¬ Mention.contains_token (Mention.re_sub text)).
Proof.
  split_and!.
  - apply MentionFacts.re_sub_removes.
  - apply MentionFacts.removes_tokens_sublist, MentionFacts.re_sub_removes.
  - rewrite <-MentionFacts.has_token_spec, not_true_iff_false.
    apply MentionFacts.re_sub_token_free.
  - intros Hm Ht%MentionFacts.has_token_spec%MentionFacts.has_token_lt.
    by apply (MentionFacts.sub_from_mentions_only 0 text Hm).
Qed.

(** A text without a mention, and a text with two of them. *)
Lemma re_sub_removes_mentions_witness :
  Mention.re_sub "hello" = "hello" ∧
  ¬ Mention.contains_token
      (Mention.re_sub "<@U0123456789> hello <@UABCDEFGHIJ>").
Proof.
  split.
  - apply (re_sub_removes_mentions "hello").
    intros H%MentionFacts.has_token_spec. discriminate H.
  - apply (re_sub_removes_mentions "<@U0123456789> hello <@UABCDEFGHIJ>").
    reflexivity.
Defined.

(** ** Running the program *)

Section Runs.

Variable env : Env.

Lemma calls_of_app {A} (m : M A) (s : State) (cs : list Call) :
  calls (m s).2 = calls s ++ cs → calls_of m s = cs.
Proof. unfold calls_of. intros ->. by rewrite drop_app_length. Qed.

Lemma document_run (user : json) (s : State) :
  document env user s = (document_id env user (calls s), s).
Proof.
  unfold document, document_id, ret, raise.
  destruct user; try done. by destruct (document_refuses env s0).
Qed.

(** [save_conversation], in one step. *)
Lemma save_conversation_steps
  (user : json) (user_input bot_output : string) (s : State) :
  save_conversation env user user_input bot_output s =
    match document_id env user (calls s) with
    | Raise e => (Raise e, s)
    | Ok id =>
        let data := conversation env (reads s) user_input bot_output in
        let cs := calls s ++ [FirestoreSet id data] in
        match firestore_refuses env (calls s) id data with
        | Some e =>
            (Raise e, {| db := db s; reads := S (S (reads s)); calls := cs |})
        | None =>
            (Ok tt,
             {| db := <[id := data]> (db s); reads := S (S (reads s));
                calls := cs |})
        end
    end.
Proof.
  unfold save_conversation, bind. rewrite document_run.
  destruct (document_id env user (calls s)) as [id|e]; [|done].
  unfold datetime_now, doc_ref_set, conversation, log. cbn.
  by destruct (firestore_refuses env _ _ _).
Qed.

(** [save_conversation] on a [str] identifier that the client accepts. *)
Lemma save_conversation_run (id user_input bot_output : string) (s : State) :
  document_refuses env id = None →
  save_conversation env (JString id) user_input bot_output s =
    let data := conversation env (reads s) user_input bot_output in
    let cs := calls s ++ [FirestoreSet id data] in
    match firestore_refuses env (calls s) id data with
    | Some e => (Raise e, {| db := db s; reads := S (S (reads s)); calls := cs |})
    | None =>
        (Ok tt,
         {| db := <[id := data]> (db s); reads := S (S (reads s));
            calls := cs |})
    end.
Proof.
  intros Hid. rewrite save_conversation_steps.
  unfold document_id. by rewrite Hid.
Qed.

(** The handler begins with the Event Normalizer and stops there when it
    fails. *)
Lemma handle_normalize (body : gmap string json) (s : State) :
  handle_app_mention_events env body s =
    match normalize env body with
    | Raise e => (Raise e, s)
    | Ok (user, only_text) =>
        (openai_response <- agent_run_call env only_text ;;
         save_conversation env user only_text openai_response ;;;
         say env openai_response)%M s
    end.
Proof.
  unfold handle_app_mention_events, normalize, bind, lift, rbind.
  destruct (box_getattr env (JObject body) "event") as [event|e]; [|done].
  destruct (box_getattr env event "user") as [user|e]; [|done].
  destruct (box_getattr env event "text") as [text|e]; [|done].
  by destruct (re_sub text) as [only_text|e].
Qed.

(** The whole turn, in one step. *)
Lemma handle_run (body : gmap string json) (s : State) :
  handle_app_mention_events env body s =
    match normalize env body with
    | Raise e => (Raise e, s)
    | Ok (user, only_text) =>
        let c1 := calls s ++ [AgentRun only_text] in
        let s1 := {| db := db s; reads := reads s; calls := c1 |} in
        match agent_run env (calls s) only_text with
        | Raise e => (Raise e, s1)
        | Ok out =>
            match document_id env user c1 with
            | Raise e => (Raise e, s1)
            | Ok id =>
                let data := conversation env (reads s) only_text out in
                let c2 := c1 ++ [FirestoreSet id data] in
                match firestore_refuses env c1 id data with
                | Some e =>
                    (Raise e,
                     {| db := db s; reads := S (S (reads s)); calls := c2 |})
                | None =>
                    (match say_refuses env c2 out with
                     | Some e => Raise e
                     | None => Ok tt
                     end,
                     {| db := <[id := data]> (db s);
                        reads := S (S (reads s));
                        calls := c2 ++ [Say out] |})
                end
            end
        end
    end.
Proof.
  rewrite handle_normalize.
  destruct (normalize env body) as [[user only_text]|e]; [|done].
  unfold bind at 1 2, agent_run_call, log. cbn [calls db reads].
  destruct (agent_run env (calls s) only_text) as [out|e]; [|done].
  rewrite save_conversation_steps. cbn [calls db reads].
  destruct (document_id env user _) as [id|e]; [|done].
  cbv zeta. destruct (firestore_refuses env _ _ _); [done|].
  unfold say, log. done.
Qed.

(** After a normalization that succeeds, the first call of the turn is the
    call of the agent on the normalized text. *)
Lemma handle_first_call
  (body : gmap string json) (user : json) (only_text : string) (s : State) :
  normalize env body = Ok (user, only_text) →
  head (calls_of (handle_app_mention_events env body) s)
    = Some (AgentRun only_text).
Proof.
  intros Hn. unfold calls_of. rewrite handle_run, Hn. cbv zeta.
  destruct (agent_run env (calls s) only_text) as [out|e]; [|by calls_done].
  destruct (document_id env user _) as [id|e]; [|by calls_done].
  destruct (firestore_refuses env _ _ _); by calls_done.
Qed.

End Runs.

(** ** The turn (Turn Handler) *)

(** C4: a turn calls the agent on the normalized text, then writes the
    store, then sends the reply, in that order and each at most once; a
    step that raises ends the turn with its exception.  When normalization
    fails nothing is called and the store is as before; when the agent fails
    there is no write and no reply; when the store step fails there is no
    reply.  When the agent answers and the client accepts the identifier,
    the write follows the call of the agent; when Firestore accepts the
    write, the reply follows it, the store holds the new document, and the
    turn returns unless the reply raises. *)
Theorem turn_steps_in_order (env : Env) (body : gmap string json) (s : State) :
  let run := handle_app_mention_events env body s in
  let made := calls_of (handle_app_mention_events env body) s in
  calls run.2 = calls s ++ made ∧
  step_of <$> made `prefix_of` [StepAgent; StepStore; StepReply] ∧
  (run.1 = Ok tt → step_of <$> made = [StepAgent; StepStore; StepReply]) ∧
  (∀ e, normalize env body = Raise e →
     run.1 = Raise e ∧ made = [] ∧ db run.2 = db s) ∧
  (∀ user only_text, normalize env body = Ok (user, only_text) →
     head made = Some (AgentRun only_text)) ∧
  (∀ user only_text e,
     normalize env body = Ok (user, only_text) →
     agent_run env (calls s) only_text = Raise e →
     run.1 = Raise e ∧ made = [AgentRun only_text] ∧ db run.2 = db s) ∧
  (∀ user only_text out e,
     normalize env body = Ok (user, only_text) →
     agent_run env (calls s) only_text = Ok out →
     (save_conversation env user only_text out
        (log (AgentRun only_text) s)).1 = Raise e →
     run.1 = Raise e ∧ StepReply ∉ step_of <$> made) ∧
  (∀ user only_text out,
     normalize env body = Ok (user, only_text) →
     agent_run env (calls s) only_text = Ok out →
     run.1 = Ok tt →
     ∃ id, made = [AgentRun only_text;
                   FirestoreSet id (conversation env (reads s) only_text out);
                   Say out]) ∧
  (∀ user only_text out id,
     normalize env body = Ok (user, only_text) →
     agent_run env (calls s) only_text = Ok out →
     document_id env user (calls s ++ [AgentRun only_text]) = Ok id →
     [AgentRun only_text;
      FirestoreSet id (conversation env (reads s) only_text out)]
       `prefix_of` made ∧
     (firestore_refuses env (calls s ++ [AgentRun only_text]) id
        (conversation env (reads s) only_text out) = None →
      made = [AgentRun only_text;
              FirestoreSet id (conversation env (reads s) only_text out);
              Say out] ∧
      db run.2 = <[id := conversation env (reads s) only_text out]> (db s) ∧
      run.1 = match say_refuses env
                      (calls s ++
                       [AgentRun only_text;
                        FirestoreSet id
                          (conversation env (reads s) only_text out)]) out
              with
              | Some e => Raise e
              | None => Ok tt
              end)).
Proof.
  intros run made. subst run made. unfold calls_of.
  rewrite handle_run.
  destruct (normalize env body) as [[user only_text]|e0] eqn:Hn.
  2: { calls_done. rewrite app_nil_r.
       split_and!; try done.
       - by exists [StepAgent; StepStore; StepReply].
       - intros e ?. by simplify_eq. }
  cbv zeta.
  destruct (agent_run env (calls s) only_text) as [out|e1] eqn:Ha.
  2: { calls_done. split_and!; try done.
       - by exists [StepStore; StepReply].
       - intros ?? [= <- <-]. done.
       - intros ??? [= <- <-] He. rewrite Ha in He. by simplify_eq.
       - intros ???? [= <- <-] He. rewrite Ha in He. done.
       - intros ???? [= <- <-] He. rewrite Ha in He. done. }
  assert (∀ e,
            (save_conversation env user only_text out
               (log (AgentRun only_text) s)).1 = Raise e →
            match document_id env user (calls s ++ [AgentRun only_text]) with
            | Raise e' => e = e'
            | Ok id =>
                firestore_refuses env (calls s ++ [AgentRun only_text]) id
                  (conversation env (reads s) only_text out) = Some e
            end) as Hsave.
  { intros e. rewrite save_conversation_steps. cbn [calls log reads].
    destruct (document_id env user _) as [id|e']; [|by intros [= <-]].
    cbv zeta. destruct (firestore_refuses env _ _ _); by intros [= <-]. }
  destruct (document_id env user (calls s ++ [AgentRun only_text]))
    as [id|e2] eqn:Hid.
  2: { calls_done. split_and!; try done.
       - by exists [StepStore; StepReply].
       - intros ?? [= <- <-]. done.
       - intros ??? [= <- <-] He. rewrite Ha in He. done.
       - intros ???? [= <- <-] He Hs. rewrite Ha in He. simplify_eq.
         specialize (Hsave _ Hs). split; [by subst|].
         cbn. rewrite list_elem_of_singleton. done.
       - intros ???? [= <- <-] He Hd. rewrite Hid in Hd. done. }
  destruct (firestore_refuses env _ id _) as [e3|] eqn:Hf.
  - calls_done. split_and!; try done.
    + by exists [StepReply].
    + intros ?? [= <- <-]. done.
    + intros ??? [= <- <-] He. rewrite Ha in He. done.
    + intros ???? [= <- <-] He Hs. rewrite Ha in He. simplify_eq.
      specialize (Hsave _ Hs). split; [congruence|].
      cbn. rewrite !elem_of_cons, elem_of_nil. by intros [?|[?|[]]].
    + intros ???? [= <- <-] He Hd. rewrite Ha in He. rewrite Hid in Hd.
      simplify_eq. split; [by exists []|]. intros Hf'. congruence.
  - calls_done. split_and!; try done.
    + intros ?? [= <- <-]. done.
    + intros ??? [= <- <-] He. rewrite Ha in He. done.
    + intros ???? [= <- <-] He Hs. rewrite Ha in He. simplify_eq.
      specialize (Hsave _ Hs). congruence.
    + intros ??? [= <- <-] He _. rewrite Ha in He. simplify_eq.
      by exists id.
    + intros ???? [= <- <-] He Hd. rewrite Ha in He. rewrite Hid in Hd.
      simplify_eq. split; [eexists [_]; reflexivity|]. intros _.
      by split_and!.
Qed.

(** The turn of the scenario when the agent is down, and when every
    service works: then the turn returns after its three calls. *)
Lemma turn_steps_in_order_witness :
  ((handle_app_mention_events Sample.env_agent_down Sample.scenario11
      Sample.start).1 = Raise (ServiceError "rate limit") ∧
   calls_of (handle_app_mention_events Sample.env_agent_down Sample.scenario11)
     Sample.start = [AgentRun " hello"] ∧
   db (handle_app_mention_events Sample.env_agent_down Sample.scenario11
         Sample.start).2 = db Sample.start) ∧
  (calls_of (handle_app_mention_events Sample.env Sample.scenario11)
     Sample.start
   = [AgentRun " hello";
      FirestoreSet "U123" (conversation Sample.env 0 " hello" "konnichiwa");
      Say "konnichiwa"] ∧
   db (handle_app_mention_events Sample.env Sample.scenario11
         Sample.start).2
   = <[ "U123" := conversation Sample.env 0 " hello" "konnichiwa" ]>
       (db Sample.start) ∧
   (handle_app_mention_events Sample.env Sample.scenario11 Sample.start).1
   = Ok tt).
Proof.
  split.
  - destruct (turn_steps_in_order Sample.env_agent_down Sample.scenario11
                Sample.start) as (_ & _ & _ & _ & _ & H & _).
    apply (H (JString "U123") " hello" (ServiceError "rate limit"));
      reflexivity.
  - destruct (turn_steps_in_order Sample.env Sample.scenario11
                Sample.start) as (_ & _ & _ & _ & _ & _ & _ & _ & H).
    destruct (H (JString "U123") " hello" "konnichiwa" "U123")
      as [_ H']; [reflexivity..|].
    apply H'. reflexivity.
Defined.

(** C7, as the spec states it, fails: the mention of the scenario has 10
    characters between [<@] and [>], the pattern asks for 11, so nothing is
    removed and the agent is called on the raw text. *)
Lemma scenario_text_not_stripped :
  normalize Sample.env Sample.scenario
    = Ok (JString "U123", "<@U0XXXXXXXX> hello") ∧
  head (calls_of (handle_app_mention_events Sample.env Sample.scenario)
          Sample.start) ≠ Some (AgentRun " hello").
Proof. split; [reflexivity | by vm_compute]. Qed.

(** C7, amended: for the event of the scenario, whose mention has 10
    characters, the normalized text passed to the agent is the raw text
    [<@U0XXXXXXXX> hello] unchanged; with a mention of 11 characters,
    [<@U0XXXXXXXXX> hello], it is [ hello], the leading space kept. *)
Theorem scenario_agent_input (env : Env) (s : State) :
  normalize env Sample.scenario
    = Ok (JString "U123", "<@U0XXXXXXXX> hello") ∧
  head (calls_of (handle_app_mention_events env Sample.scenario) s)
    = Some (AgentRun "<@U0XXXXXXXX> hello") ∧
  normalize env Sample.scenario11 = Ok (JString "U123", " hello") ∧
  head (calls_of (handle_app_mention_events env Sample.scenario11) s)
    = Some (AgentRun " hello").
Proof.
  assert (normalize env Sample.scenario
          = Ok (JString "U123", "<@U0XXXXXXXX> hello")) as H10 by reflexivity.
  assert (normalize env Sample.scenario11 = Ok (JString "U123", " hello"))
    as H11 by reflexivity.
  split_and!; [done| |done|].
  - by apply (handle_first_call env _ _ _ s) in H10.
  - by apply (handle_first_call env _ _ _ s) in H11.
Qed.

(** C8, as the spec states it, fails: [Box] converts keys to attribute
    names, so an event without the key [user] whose user stands under the
    key [user!] is handled like any other: the agent is called and the turn
    returns. *)
Lemma handle_finds_converted_key :
  event_field Sample.user_bang "user" = None ∧
  (handle_app_mention_events Sample.env Sample.user_bang Sample.start).1
    = Ok tt ∧
  calls_of (handle_app_mention_events Sample.env Sample.user_bang)
    Sample.start
  = [AgentRun "hi";
     FirestoreSet "U123" (conversation Sample.env 0 "hi" "konnichiwa");
     Say "konnichiwa"].
Proof. split_and!; reflexivity. Qed.

(** C8, amended: an event in which attribute access finds no [event.user]
    or no [event.text] (the key is missing and no other key is converted to
    that name by [Box]) makes the handler raise the missing-field exception
    at once: the agent is not called, nothing is written, nothing is sent,
    the state is as before. *)
Theorem handle_missing_field (env : Env) (body : gmap string json) (s : State) :
  event_attr env body "user" = None ∨ event_attr env body "text" = None →
  ∃ e, MalformedEventError e ∧
       handle_app_mention_events env body s = (Raise e, s) ∧
       calls_of (handle_app_mention_events env body) s = [].
Proof.
  intros H.
  assert (∃ e, MalformedEventError e ∧ normalize env body = Raise e)
    as (e & He & Hn).
  { unfold event_attr, normalize, rbind, box_getattr in *.
    destruct (box_lookup env body "event") as [event|];
      [|eexists; split; [|reflexivity]; exact I].
    destruct event; try (eexists; split; [|reflexivity]; exact I).
    destruct (box_lookup env kvs "user");
      [|eexists; split; [|reflexivity]; exact I].
    destruct (box_lookup env kvs "text");
      [|eexists; split; [|reflexivity]; exact I].
    by destruct H. }
  exists e. rewrite handle_normalize, Hn. split_and!; [done..|].
  apply calls_of_app. rewrite handle_normalize, Hn. by rewrite app_nil_r.
Qed.

(** An event that has a text and no user, under any key. *)
Lemma handle_missing_field_witness :
  ∃ e, MalformedEventError e ∧
       handle_app_mention_events Sample.env Sample.no_user Sample.start
         = (Raise e, Sample.start) ∧
       calls_of (handle_app_mention_events Sample.env Sample.no_user)
         Sample.start = [].
Proof.
  apply (handle_missing_field Sample.env Sample.no_user Sample.start).
  left. reflexivity.
Defined.

(** ** The store (Conversation Store Adapter) *)

(** C5, as the spec states it, fails: each entry reads the clock for
    itself.  With a clock that advances between the two readings the two
    entries differ in their timestamp. *)
Lemma save_conversation_timestamps_differ :
  db (save_conversation Sample.env (JString "U123") " hello" "konnichiwa"
        Sample.start).2 !! "U123"
  = Some {| history :=
              [ {| input := " hello"; response := "konnichiwa";
                   timestamp := 0 |};
                {| input := " hello"; response := "konnichiwa";
                   timestamp := 1 |} ] |} ∧
  {| input := " hello"; response := "konnichiwa"; timestamp := 0 |}
  ≠ {| input := " hello"; response := "konnichiwa"; timestamp := 1 |}.
Proof. split; [reflexivity | discriminate]. Qed.

(** C5, amended: every document that a call of [save_conversation] hands
    to [set] has a [history] of exactly two entries, both with the input and
    the response of the call; the timestamp of each is the clock read when
    that entry is built, the second after the first, so the two entries are
    identical exactly when the two readings coincide.  When the client
    accepts the identifier, the call hands such a document to [set]. *)
Theorem save_conversation_history
  (env : Env) (user : json) (user_input bot_output : string) (s : State) :
  (∀ id data,
     FirestoreSet id data
       ∈ calls_of (save_conversation env user user_input bot_output) s →
     ∃ e1 e2,
       history data = [e1; e2] ∧
       input e1 = user_input ∧ input e2 = user_input ∧
       response e1 = bot_output ∧ response e2 = bot_output ∧
       timestamp e1 = now env (reads s) ∧
       timestamp e2 = now env (S (reads s)) ∧
       (e1 = e2 ↔ now env (reads s) = now env (S (reads s)))) ∧
  (∀ id,
     document_id env user (calls s) = Ok id →
     calls_of (save_conversation env user user_input bot_output) s
     = [FirestoreSet id (conversation env (reads s) user_input bot_output)]).
Proof.
  assert (∀ id,
     document_id env user (calls s) = Ok id →
     calls_of (save_conversation env user user_input bot_output) s
     = [FirestoreSet id (conversation env (reads s) user_input bot_output)])
    as Hset.
  { intros id Hid. apply calls_of_app. rewrite save_conversation_steps, Hid.
    cbv zeta. by destruct (firestore_refuses env _ _ _). }
  split; [|done]. intros id data.
  destruct (document_id env user (calls s)) as [id'|e] eqn:Hid.
  - rewrite (Hset id' eq_refl), list_elem_of_singleton. intros [= -> ->].
    eexists _, _. split; [reflexivity|]. split_and!; [reflexivity..|].
    cbn. split; [by intros [= ->] | by intros ->].
  - unfold calls_of. rewrite save_conversation_steps, Hid, drop_all.
    by intros ?%elem_of_nil.
Qed.

(** A save for [U123]. *)
Lemma save_conversation_history_witness :
  calls_of (save_conversation Sample.env (JString "U123") "hi" "ok")
    Sample.start
  = [FirestoreSet "U123" (conversation Sample.env 0 "hi" "ok")].
Proof.
  apply (save_conversation_history Sample.env (JString "U123") "hi" "ok"
           Sample.start).
  reflexivity.
Defined.

(** C6, as the spec states it, fails: not every identifier names a
    document.  For the identifier [a/b] the path [testChat/a/b] has three
    elements, the client raises when the reference is made, and nothing is
    stored. *)
Lemma save_conversation_bad_identifier :
  save_conversation Sample.env (JString "a/b") "hi" "ok" Sample.start
    = (Raise ValueError, Sample.start) ∧
  db (save_conversation Sample.env (JString "a/b") "hi" "ok"
        Sample.start).2 !! "a/b" = None.
Proof. split; reflexivity. Qed.

(** C6, amended: for an identifier that the client accepts as a document
    of the collection, a write that Firestore accepts replaces the document
    of the user: whatever the collection held, the document under [userId]
    is afterwards the one built from this call alone, and no other document
    changes. *)
Theorem save_conversation_overwrites
  (env : Env) (id user_input bot_output : string) (s : State) :
  let data := conversation env (reads s) user_input bot_output in
  let run := save_conversation env (JString id) user_input bot_output s in
  document_refuses env id = None →
  firestore_refuses env (calls s) id data = None →
  run.1 = Ok tt ∧
  db run.2 !! id = Some data ∧
  db run.2 = <[id := data]> (db s) ∧
  (∀ id', id' ≠ id → db run.2 !! id' = db s !! id').
Proof.
  intros data run Hid Hok. subst run. rewrite save_conversation_run by done.
  cbv zeta. fold data. rewrite Hok. cbn. split_and!; [done| |done|].
  - apply lookup_insert_eq.
  - intros id' Hne. by apply lookup_insert_ne.
Qed.

(** A second turn of a user who has a document. *)
Lemma save_conversation_overwrites_witness :
  db (save_conversation Sample.env (JString "U123") "hi" "ok"
        Sample.used).2 !! "U123"
  = Some (conversation Sample.env 4 "hi" "ok").
Proof.
  apply (save_conversation_overwrites Sample.env "U123" "hi" "ok"
           Sample.used); reflexivity.
Defined.

(** ** The HTTP entry point (Delivery Controller) *)

(** C2: a body of type [url_verification] that has a [challenge] is
    answered with status 200, [Content-Type: application/json] and the JSON
    text of an object whose only field, [challenge], is the challenge of
    the request.  No header is looked at: the handshake comes first. *)
Theorem slack_bot_url_verification
  (env : Env) (request : Request) (body : gmap string json)
  (challenge : json) (s : State) :
  get_json request = Ok (JObject body) →
  body !! "type" = Some (JString "url_verification") →
  body !! "challenge" = Some challenge →
  slack_bot env request s =
    (Ok (RTuple (json_dumps env (JObject {[ "challenge" := challenge ]}))
           200 {[ "Content-Type" := "application/json" ]}), s).
Proof.
  intros Hbody Htype Hchallenge.
  unfold slack_bot, bind, lift, ret. rewrite Hbody. cbn.
  rewrite Htype. cbn. by rewrite Hchallenge.
Qed.

(** A handshake that carries the retry header as well. *)
Lemma slack_bot_url_verification_witness :
  truthy (headers_get (headers Sample.handshake) "x-slack-retry-num") = true ∧
  slack_bot Sample.env Sample.handshake Sample.start =
    (Ok (RTuple (json_dumps Sample.env
                   (JObject {[ "challenge" := JString "3eZbrw1aB" ]}))
           200 {[ "Content-Type" := "application/json" ]}), Sample.start).
Proof.
  split; [reflexivity|].
  apply (slack_bot_url_verification Sample.env Sample.handshake
           {[ "type" := JString "url_verification";
              "challenge" := JString "3eZbrw1aB" ]}); reflexivity.
Defined.

(** C1, as the spec states it, fails: the body is asked for its type
    before the retry header is looked at.  A retried delivery whose body is
    a JSON array, which has no [get], raises [AttributeError]; it is not
    acknowledged. *)
Lemma slack_bot_retry_array_raises :
  headers_get (headers Sample.retried_array) "x-slack-retry-num"
    = Some "1"%string ∧
  slack_bot Sample.env Sample.retried_array Sample.start
    = (Raise (AttributeError "get"), Sample.start).
Proof. split; reflexivity. Qed.

(** C1, amended: a request with a non-empty [x-slack-retry-num] header whose
    body is a JSON object that is not a handshake is answered with
    [statusCode] 200 and the JSON text of [{"message": "No need to
    resend"}]; the state is as before: the agent was not called and nothing
    was written. *)
Theorem slack_bot_retry
  (env : Env) (request : Request) (body : gmap string json)
  (num : string) (s : State) :
  get_json request = Ok (JObject body) →
  eq_str (body !! "type") "url_verification" = false →
  headers_get (headers request) "x-slack-retry-num" = Some num →
  num ≠ "" →
  slack_bot env request s = (Ok (RDict (no_need_to_resend env)), s) ∧
  calls_of (slack_bot env request) s = [] ∧
  no_need_to_resend env !! "statusCode" = Some (JInt 200) ∧
  no_need_to_resend env !! "body" =
    Some (JString (json_dumps env
            (JObject {[ "message" := JString "No need to resend" ]}))).
Proof.
  intros Hbody Htype Hnum Hne.
  assert (slack_bot env request s = (Ok (RDict (no_need_to_resend env)), s))
    as Hrun.
  { unfold slack_bot, bind, lift, ret. rewrite Hbody. cbn.
    rewrite Htype, Hnum. by destruct num. }
  split_and!; [done| |reflexivity..].
  apply calls_of_app. by rewrite Hrun, app_nil_r.
Qed.

(** A message delivered again. *)
Lemma slack_bot_retry_witness :
  slack_bot Sample.env Sample.retried Sample.start
    = (Ok (RDict (no_need_to_resend Sample.env)), Sample.start) ∧
  calls_of (slack_bot Sample.env Sample.retried) Sample.start = [].
Proof.
  destruct (slack_bot_retry Sample.env Sample.retried
              {[ "type" := JString "event_callback";
                 "event" := JObject {[ "type" := JString "message";
                                       "user" := JString "U123";
                                       "text" := JString "hello" ]} ]}
              "1" Sample.start) as (H1 & H2 & _);
    [reflexivity | reflexivity | reflexivity | discriminate |].
  split; [exact H1 | exact H2].
Defined.

(** C9, as the spec states it, fails: with an empty retry header and a
    body that is a JSON array, [slack_bot] raises [AttributeError] at
    [body.get]; nothing is handed to the Bolt adapter. *)
Lemma slack_bot_empty_retry_array_raises :
  headers_get (headers Sample.empty_retry_array) "x-slack-retry-num"
    = Some ""%string ∧
  slack_bot Sample.env Sample.empty_retry_array Sample.start
    = (Raise (AttributeError "get"), Sample.start) ∧
  handler_handle Sample.env Sample.empty_retry_array Sample.start
    = (Ok NotRouted, Sample.start).
Proof. split_and!; reflexivity. Qed.

(** C9, amended: a request whose [x-slack-retry-num] header is there with
    the empty string as its value, and whose body is a JSON object that is
    not a handshake, is not acknowledged as a retry: it goes to the Bolt
    adapter, and [slack_bot] returns the adapter's response; when the
    adapter routes the event, the listener runs on the body. *)
Theorem slack_bot_empty_retry_header
  (env : Env) (request : Request) (body : gmap string json) (s : State) :
  get_json request = Ok (JObject body) →
  eq_str (body !! "type") "url_verification" = false →
  headers_get (headers request) "x-slack-retry-num" = Some "" →
  ∃ r s',
    handler_handle env request s = (Ok r, s') ∧
    slack_bot env request s = (Ok (RBolt r), s') ∧
    slack_bot env request s ≠ (Ok (RDict (no_need_to_resend env)), s) ∧
    (bolt_routes env request = true →
     r = ListenerRan (handle_app_mention_events env body s).1 ∧
     s' = (handle_app_mention_events env body s).2).
Proof.
  intros Hbody Htype Hnum.
  assert (slack_bot env request s =
            (r <- handler_handle env request ;; ret (RBolt r))%M s) as Hrun.
  { unfold slack_bot at 1, bind at 1 2, lift. rewrite Hbody. cbn [dict_get].
    by rewrite Htype, Hnum. }
  rewrite Hrun. unfold bind, ret, handler_handle. rewrite Hbody.
  destruct (bolt_routes env request).
  - destruct (handle_app_mention_events env body s) as [r s'] eqn:Hh.
    exists (ListenerRan r), s'. by split_and!.
  - exists NotRouted, s. by split_and!.
Qed.

(** A message whose retry header is empty: the turn takes place. *)
Lemma slack_bot_empty_retry_header_witness :
  ∃ r s',
    slack_bot Sample.env Sample.empty_retry Sample.start = (Ok (RBolt r), s') ∧
    r = ListenerRan (Ok tt) ∧
    head (calls s') = Some (AgentRun "hello").
Proof.
  destruct (slack_bot_empty_retry_header Sample.env Sample.empty_retry
              {[ "type" := JString "event_callback";
                 "event" := JObject {[ "type" := JString "message";
                                       "user" := JString "U123";
                                       "text" := JString "hello" ]} ]}
              Sample.start) as (r & s' & _ & Hrun & _ & Hl);
    [reflexivity | reflexivity | reflexivity |].
  exists r, s'. destruct (Hl eq_refl) as [-> ->].
  split_and!; [exact Hrun | reflexivity | reflexivity].
Defined.

(** C10: a body of type [url_verification] without a [challenge] key makes
    [slack_bot] raise [KeyError]; it returns no response. *)
Theorem slack_bot_missing_challenge
  (env : Env) (request : Request) (body : gmap string json) (s : State) :
  get_json request = Ok (JObject body) →
  body !! "type" = Some (JString "url_verification") →
  body !! "challenge" = None →
  slack_bot env request s = (Raise (KeyError "challenge"), s).
Proof.
  intros Hbody Htype Hchallenge.
  unfold slack_bot, bind, lift. rewrite Hbody. cbn.
  rewrite Htype. cbn. by rewrite Hchallenge.
Qed.

(** A handshake body that has only its type. *)
Lemma slack_bot_missing_challenge_witness :
  slack_bot Sample.env Sample.handshake_no_challenge Sample.start
    = (Raise (KeyError "challenge"), Sample.start).
Proof.
  apply (slack_bot_missing_challenge Sample.env Sample.handshake_no_challenge
           {[ "type" := JString "url_verification" ]}); reflexivity.
Defined.

(** * Further properties *)

(** ** The pattern, character by character *)

Module PatternFacts.
Import Mention.

Lemma lt_not_alnum : is_alnum "<" = false.
Proof. reflexivity. Qed.

Lemma gt_not_alnum : is_alnum ">" = false.
Proof. reflexivity. Qed.

Lemma all_alnum_append (w1 w2 : string) :
  all_alnum (w1 +:+ w2) = all_alnum w1 && all_alnum w2.
Proof.
  induction w1 as [|c w1 IH]; simpl; [done|].
  by rewrite IH, andb_assoc.
Qed.

Lemma all_alnum_no_lt (w : string) :
  all_alnum w = true → "<"%char ∉ chars w.
Proof.
  unfold chars. induction w as [|c w IH]; simpl; [intros _; apply not_elem_of_nil|].
  rewrite andb_true_iff, not_elem_of_cons. intros [Hc Hw].
  split; [|by apply IH]. intros <-. by rewrite lt_not_alnum in Hc.
Qed.

(** [[a-zA-Z0-9]{n}] matches exactly the words of [n] such characters. *)
Lemma match_alnums_iff (n : nat) (s rest : string) :
  match_alnums n s = Some rest ↔
  ∃ w, s = w +:+ rest ∧ String.length w = n ∧ all_alnum w = true.
Proof.
  split.
  - revert s. induction n as [|n IH]; intros s H; simpl in H.
    + exists "". by simplify_eq.
    + destruct s as [|c s]; [done|].
      destruct (is_alnum c) eqn:Hc; [|done].
      destruct (IH _ H) as (w & -> & Hlen & Hw).
      exists (String c w). simpl. by rewrite Hc, Hlen, Hw.
  - intros (w & -> & <- & Hw). induction w as [|c w IH]; simpl in *; [done|].
    apply andb_true_iff in Hw as [-> Hw]. by apply IH.
Qed.

(** A word that is too short for [{n}] and is followed by a character
    outside the class. *)
Lemma match_alnums_short (n : nat) (w : string) (c : ascii) (y : string) :
  is_alnum c = false → (String.length w < n)%nat →
  match_alnums n (w +:+ String c y) = None.
Proof.
  intros Hc. revert n. induction w as [|a w IH]; intros n Hn; simpl in *.
  - destruct n as [|n]; [lia|]. simpl. by rewrite Hc.
  - destruct n as [|n]; [lia|]. simpl.
    destruct (is_alnum a); [apply IH; lia | done].
Qed.

(** A word that is long enough: the match lies inside it. *)
Lemma match_alnums_inside (n : nat) (a y r : string) :
  match_alnums n (a +:+ y) = Some r → (n ≤ String.length a)%nat →
  ∃ r', match_alnums n a = Some r' ∧ r = r' +:+ y.
Proof.
  revert a. induction n as [|n IH]; intros a H Hn; simpl in *.
  - exists a. by simplify_eq.
  - destruct a as [|c a]; simpl in *; [lia|].
    destruct (is_alnum c); [|done]. apply IH; [done | lia].
Qed.

(** A position before a [<] at which the pattern does not match the text
    so far does not match the longer text either: a match cannot run over
    a [<]. *)
Lemma match_token_before_lt (c : ascii) (p q : string) :
  match_token (String c p) = None →
  match_token (String c (p +:+ String "<" q)) = None.
Proof.
  intros Hp.
  destruct (match_token (String c (p +:+ String "<" q))) as [r|] eqn:Hm;
    [exfalso | done].
  pose proof (MentionFacts.match_token_head _ _ (mk_is_Some _ _ Hm)) as ->.
  destruct p as [|c1 p]; [done|].
  unfold match_token in Hm, Hp. cbn [String.append] in Hm.
  destruct (Ascii.eqb_spec c1 "@") as [->|Hc1];
    [|destruct c1 as [[] [] [] [] [] [] [] []]; done].
  destruct (match_alnums 11 (p +:+ String "<" q)) as [[|c2 r2]|] eqn:Ha;
    try done.
  destruct (Ascii.eqb_spec c2 ">") as [->|Hc2];
    [|destruct c2 as [[] [] [] [] [] [] [] []]; done].
  simplify_eq.
  destruct (decide (String.length p < 11)%nat) as [Hlt|Hge].
  - by rewrite (match_alnums_short 11 p "<" q lt_not_alnum Hlt) in Ha.
  - destruct (match_alnums_inside 11 p _ _ Ha) as (r' & Hr' & Heq); [lia|].
    rewrite Hr' in Hp. destruct r' as [|c3 r']; [done|].
    cbn [String.append] in Heq. by simplify_eq.
Qed.

(** The markup of an identifier of 11 characters is a token. *)
Lemma mention_is_token (w : string) :
  all_alnum w = true → String.length w = 11%nat → is_token (mention w).
Proof.
  intros Hw Hlen. unfold is_token, mention.
  assert (match_alnums 11 (w +:+ ">") = Some ">"%string) as Hm.
  { apply match_alnums_iff. by exists w. }
  cbn [String.append]. unfold match_token. by rewrite Hm.
Qed.

(** Characters other than [<] are kept where they stand. *)
Lemma re_sub_no_lt (p rest : string) :
  "<"%char ∉ chars p → re_sub (p +:+ rest) = p +:+ re_sub rest.
Proof.
  unfold chars. induction p as [|c p IH]; [done|].
  cbn [list_ascii_of_string String.append].
  rewrite not_elem_of_cons. intros [Hc Hp].
  rewrite MentionFacts.re_sub_cons.
  destruct (match_token (String c (p +:+ rest))) as [r|] eqn:Hm.
  - by pose proof (MentionFacts.match_token_head _ _ (mk_is_Some _ _ Hm)).
  - by rewrite IH.
Qed.

(** A token-free piece before a token is kept, and the token is removed. *)
Lemma re_sub_piece_token (p t rest : string) :
  has_token p = false → is_token t →
  re_sub (p +:+ t +:+ rest) = p +:+ re_sub rest.
Proof.
  intros Hp Ht. induction p as [|c p IH]; cbn [String.append].
  - destruct t as [|c t]; [done|]. cbn [String.append].
    rewrite MentionFacts.re_sub_cons.
    pose proof (MentionFacts.match_token_of_token _ rest Ht) as Hm.
    cbn [String.append] in Hm. by rewrite Hm.
  - apply MentionFacts.has_token_cons in Hp as [Hc Hp].
    rewrite MentionFacts.re_sub_cons.
    destruct t as [|c0 t]; [done|].
    pose proof (MentionFacts.match_token_head c0 (t +:+ rest)) as Hc0.
    pose proof (MentionFacts.match_token_of_token _ rest Ht) as Hm.
    cbn [String.append] in Hm |- *.
    rewrite Hc0 by (by rewrite Hm).
    rewrite (match_token_before_lt c p (t +:+ rest) Hc).
    rewrite <-Hc0 by (by rewrite Hm).
    by rewrite <-(IH Hp).
Qed.

End PatternFacts.

(** ** What the pattern matches and what one pass returns *)

(** X1: the pattern matches at the head of a text exactly when the text
    begins with [<@], an identifier of exactly 11 characters of
    [[a-zA-Z0-9]] and [>]; what follows is the rest. *)
Theorem match_token_iff (s rest : string) :
  Mention.match_token s = Some rest ↔
  ∃ w, s = mention w +:+ rest ∧ String.length w = 11%nat ∧
       all_alnum w = true.
Proof.
  unfold mention. split.
  - intros H. unfold Mention.match_token in H.
    destruct s as [|c0 [|c1 s1]]; try done;
      [destruct c0 as [[] [] [] [] [] [] [] []]; done|].
    destruct (Ascii.eqb_spec c0 "<") as [->|Hc0];
      [|destruct c0 as [[] [] [] [] [] [] [] []]; done].
    destruct (Ascii.eqb_spec c1 "@") as [->|Hc1];
      [|destruct c1 as [[] [] [] [] [] [] [] []]; done].
    destruct (Mention.match_alnums 11 s1) as [[|c2 r]|] eqn:Hm; try done.
    destruct (Ascii.eqb_spec c2 ">") as [->|Hc2];
      [|destruct c2 as [[] [] [] [] [] [] [] []]; done].
    simplify_eq.
    apply PatternFacts.match_alnums_iff in Hm as (w & -> & Hlen & Hw).
    exists w. split_and!; [|done..].
    cbn [String.append]. by rewrite !append_assoc.
  - intros (w & -> & Hlen & Hw).
    assert (Mention.match_alnums 11 (w +:+ String ">" rest)
            = Some (String ">" rest)) as Hm.
    { apply PatternFacts.match_alnums_iff. by exists w. }
    rewrite !append_assoc. cbn [String.append].
    unfold Mention.match_token. by rewrite Hm.
Qed.

(** A mention of [U0123456789], followed by a text. *)
Lemma match_token_iff_witness :
  Mention.match_token "<@U0123456789> hello" = Some " hello".
Proof.
  apply (match_token_iff "<@U0123456789> hello" " hello").
  exists "U0123456789". split_and!; reflexivity.
Defined.

(** X2: a mention whose identifier has not exactly 11 characters is not
    removed: it is kept as it stands and the pass goes on behind it. *)
Theorem re_sub_keeps_other_lengths (w rest : string) :
  all_alnum w = true → String.length w ≠ 11%nat →
  Mention.re_sub (mention w +:+ rest) = mention w +:+ Mention.re_sub rest.
Proof.
  intros Hw Hlen. unfold mention. rewrite !append_assoc.
  cbn [String.append]. rewrite MentionFacts.re_sub_cons.
  assert (Mention.match_token
            (String "<" (String "@" (w +:+ String ">" rest))) = None) as ->.
  { unfold Mention.match_token.
    destruct (decide (String.length w < 11)%nat) as [Hlt|Hge].
    - by rewrite (PatternFacts.match_alnums_short 11 w ">" rest
                    PatternFacts.gt_not_alnum Hlt).
    - destruct (Mention.match_alnums 11 (w +:+ String ">" rest))
        as [[|c r]|] eqn:Hm; try done.
      destruct (PatternFacts.match_alnums_inside 11 w _ _ Hm)
        as (r' & Hr' & Heq); [lia|].
      apply PatternFacts.match_alnums_iff in Hr' as (w1 & -> & Hl1 & _).
      rewrite PatternFacts.all_alnum_append in Hw.
      apply andb_true_iff in Hw as [_ Hr'].
      destruct r' as [|c' r'].
      { rewrite length_append in Hlen, Hge. simpl in *. lia. }
      cbn [String.append] in Heq. simplify_eq. simpl in Hr'.
      apply andb_true_iff in Hr' as [Hc' _].
      destruct (Ascii.eqb_spec c' ">") as [->|Hne];
        [by rewrite PatternFacts.gt_not_alnum in Hc'|].
      destruct c' as [[] [] [] [] [] [] [] []]; done. }
  f_equal.
  replace (String "@" (w +:+ String ">" rest))
    with ((String "@" (w +:+ ">")) +:+ rest)
    by (cbn [String.append]; by rewrite append_assoc).
  replace (String "@" (w +:+ String ">" (Mention.re_sub rest)))
    with ((String "@" (w +:+ ">")) +:+ Mention.re_sub rest)
    by (cbn [String.append]; by rewrite append_assoc).
  apply PatternFacts.re_sub_no_lt.
  unfold Mention.chars. cbn [list_ascii_of_string].
  rewrite not_elem_of_cons. split; [done|].
  fold (Mention.chars (w +:+ ">")). rewrite chars_append.
  rewrite not_elem_of_app. split; [by apply PatternFacts.all_alnum_no_lt|].
  unfold Mention.chars. cbn. rewrite list_elem_of_singleton. done.
Qed.

(** An identifier of 9 characters. *)
Lemma re_sub_keeps_other_lengths_witness :
  Mention.re_sub "<@U012AB3CD> hello" = "<@U012AB3CD> hello".
Proof.
  apply (re_sub_keeps_other_lengths "U012AB3CD" " hello");
    [reflexivity | discriminate].
Defined.

(** X3: a mention of an identifier of 11 characters is removed wherever it
    stands behind a piece of text without a token: the piece is kept as it
    is and the pass goes on behind the mention.  With an empty piece: a
    mention at the very beginning is removed. *)
Theorem re_sub_removes_mention (p w rest : string) :
  ¬ Mention.contains_token p →
  all_alnum w = true → String.length w = 11%nat →
  Mention.re_sub (p +:+ mention w +:+ rest) = p +:+ Mention.re_sub rest.
Proof.
  rewrite <-MentionFacts.has_token_spec, not_true_iff_false.
  intros Hp Hw Hlen. apply PatternFacts.re_sub_piece_token; [done|].
  by apply PatternFacts.mention_is_token.
Qed.

(** A question behind a greeting and a mention. *)
Lemma re_sub_removes_mention_witness :
  Mention.re_sub "hi <@U0123456789> what is new?" = "hi  what is new?".
Proof.
  apply (re_sub_removes_mention "hi " "U0123456789" " what is new?");
    [|reflexivity..].
  intros H%MentionFacts.has_token_spec. discriminate H.
Defined.

(** X4: the result of one pass is the only way to cut the text into
    token-free pieces separated by tokens and to join the pieces: the
    relation [removes_tokens] holds of a text and [out] exactly when [out]
    is what [re.sub] returns. *)
Theorem removes_tokens_iff (text out : string) :
  Mention.removes_tokens text out ↔ out = Mention.re_sub text.
Proof.
  split; [|intros ->; apply MentionFacts.re_sub_removes].
  induction 1 as [p Hp | p t rest out Hp Ht H IH].
  - by rewrite MentionFacts.re_sub_token_free.
  - by rewrite PatternFacts.re_sub_piece_token, IH.
Qed.

(** X5: one pass shortens the text by 14 characters for each token it
    removes, and it returns the text unchanged exactly when the text
    contains no token. *)
Theorem re_sub_length (text : string) :
  (∃ n, String.length text
        = (String.length (Mention.re_sub text) + 14 * n)%nat) ∧
  (Mention.re_sub text = text ↔ ¬ Mention.contains_token text).
Proof.
  assert (∃ n, String.length text
               = (String.length (Mention.re_sub text) + 14 * n)%nat ∧
               (n = 0%nat ↔ Mention.has_token text = false)) as (n & Hn & H0).
  { assert (∀ k s, (String.length s < k)%nat →
              ∃ n, String.length s
                   = (String.length (Mention.re_sub s) + 14 * n)%nat ∧
                   (n = 0%nat ↔ Mention.has_token s = false)) as H;
      [|apply (H (S (String.length text))); lia].
    induction k as [|k IH]; intros s Hk; [lia|].
    destruct s as [|c s]; [by exists 0%nat|].
    rewrite MentionFacts.re_sub_cons.
    destruct (Mention.match_token (String c s)) as [rest|] eqn:Hm.
    - destruct (MentionFacts.match_token_split _ _ Hm) as (t & Hs & _ & Hlen).
      destruct (IH rest) as (n & Hn & _).
      { rewrite Hs, length_append in Hk. lia. }
      exists (S n). split.
      + rewrite Hs, length_append, Hlen, Hn. lia.
      + split; [done|]. cbn [Mention.has_token]. rewrite Hm.
        rewrite bool_decide_eq_true_2 by by eexists. done.
    - destruct (IH s) as (n & Hn & H0); [simpl in Hk; lia|].
      exists n. split; [simpl; lia|].
      rewrite MentionFacts.has_token_cons, H0.
      split; [done | by intros [_ ?]]. }
  split; [by exists n|].
  rewrite <-MentionFacts.has_token_spec, not_true_iff_false, <-H0.
  split; [intros Heq; rewrite Heq in Hn; lia|].
  intros Hz. apply MentionFacts.re_sub_token_free. by apply H0.
Qed.

(** X6: when every [<] of the text starts a mention, a second pass changes
    nothing (without that, it can: a token around a token). *)
Theorem re_sub_twice (text : string) :
  Mention.mentions_only text = true →
  Mention.re_sub (Mention.re_sub text) = Mention.re_sub text.
Proof.
  intros Hm. apply MentionFacts.re_sub_token_free.
  apply not_true_is_false. intros Ht%MentionFacts.has_token_lt.
  by apply (MentionFacts.sub_from_mentions_only 0 text Hm).
Qed.

(** Two mentions and a text between them. *)
Lemma re_sub_twice_witness :
  Mention.re_sub (Mention.re_sub "<@U0123456789> and <@UABCDEFGHIJ>")
  = " and ".
Proof.
  rewrite (re_sub_twice "<@U0123456789> and <@UABCDEFGHIJ>");
    reflexivity.
Defined.

(** ** The normalizer and the turn, further *)

(** X8: an event that has a [user] and a [text] which is no string (a
    [null], a number, a list, a dict) makes the turn raise [TypeError] in
    [re.sub], before the agent is called: the state is as before. *)
Theorem handle_text_not_str
  (env : Env) (body event : gmap string json) (user text : json) (s : State) :
  body !! "event" = Some (JObject event) →
  event !! "user" = Some user →
  event !! "text" = Some text →
  (∀ raw, text ≠ JString raw) →
  handle_app_mention_events env body s = (Raise TypeError, s).
Proof.
  intros Hev Hu Ht Hstr. rewrite handle_normalize.
  unfold normalize, rbind, box_getattr, box_lookup, re_sub.
  rewrite Hev, Hu, Ht.
  destruct text; try done. by destruct (Hstr s0).
Qed.

(** A message whose text is [null]. *)
Lemma handle_text_not_str_witness :
  handle_app_mention_events Sample.env text_null Sample.start
  = (Raise TypeError, Sample.start).
Proof.
  apply (handle_text_not_str Sample.env text_null
           {[ "user" := JString "U123"; "text" := JNull ]}
           (JString "U123") JNull); [reflexivity..|].
  intros raw. discriminate.
Defined.

(** X9: a turn changes no other document than the one of the user it
    finds in its event: for every identifier that is not the (string) user
    that lines 103 to 106 extract, and when that user is not [null], the
    document is afterwards what it was, whether the turn returns or
    raises. *)
Theorem turn_keeps_other_documents
  (env : Env) (body : gmap string json) (s : State) (id : string) :
  (∀ only_text, normalize env body ≠ Ok (JString id, only_text)) →
  (∀ only_text, normalize env body ≠ Ok (JNull, only_text)) →
  db (handle_app_mention_events env body s).2 !! id = db s !! id.
Proof.
  intros Hid Hnull. rewrite handle_run.
  destruct (normalize env body) as [[user only_text]|e] eqn:Hn; [|done].
  cbv zeta.
  destruct (agent_run env (calls s) only_text) as [out|e]; [|done].
  destruct (document_id env user _) as [id'|e] eqn:Hd; [|done].
  destruct (firestore_refuses env _ _ _); [done|].
  cbn. apply lookup_insert_ne. intros ->.
  unfold document_id in Hd. destruct user; try done.
  - by destruct (Hnull only_text).
  - destruct (document_refuses env s0); [done|]. simplify_eq.
    by destruct (Hid only_text).
Qed.

(** The turn of [U123] leaves the document of [U999] alone. *)
Lemma turn_keeps_other_documents_witness :
  db (handle_app_mention_events Sample.env Sample.scenario11
        Sample.used).2 !! "U999" = db Sample.used !! "U999".
Proof.
  apply (turn_keeps_other_documents Sample.env Sample.scenario11
           Sample.used "U999"); intros only_text H; discriminate H.
Defined.

(** X10: after a turn that returns, the document of the user holds, twice,
    the text the agent was asked and the answer it gave, and that answer
    is the reply that was sent last. *)
Theorem turn_stores_what_it_says
  (env : Env) (body : gmap string json) (u only_text : string) (s : State) :
  normalize env body = Ok (JString u, only_text) →
  (handle_app_mention_events env body s).1 = Ok tt →
  ∃ out,
    agent_run env (calls s) only_text = Ok out ∧
    db (handle_app_mention_events env body s).2 !! u
      = Some (conversation env (reads s) only_text out) ∧
    last (calls (handle_app_mention_events env body s).2) = Some (Say out).
Proof.
  intros Hn. rewrite handle_run, Hn. cbv zeta.
  destruct (agent_run env (calls s) only_text) as [out|e]; [|done].
  unfold document_id. destruct (document_refuses env u); [done|].
  destruct (firestore_refuses env _ _ _); [done|].
  cbn. intros _. exists out. split_and!; [done| |].
  - apply lookup_insert_eq.
  - by rewrite last_snoc.
Qed.

(** The turn of the scenario with services that work. *)
Lemma turn_stores_what_it_says_witness :
  ∃ out,
    agent_run Sample.env (calls Sample.start) " hello" = Ok out ∧
    db (handle_app_mention_events Sample.env Sample.scenario11
          Sample.start).2 !! "U123"
      = Some (conversation Sample.env (reads Sample.start) " hello" out) ∧
    last (calls (handle_app_mention_events Sample.env Sample.scenario11
                   Sample.start).2) = Some (Say out).
Proof.
  apply (turn_stores_what_it_says Sample.env Sample.scenario11
           "U123" " hello" Sample.start); reflexivity.
Defined.

(** X11: a save is not taken back when the reply fails: if the agent
    answers, the client accepts the identifier and Firestore accepts the
    write but [say] raises, the turn raises that exception and the new
    document stays in the store. *)
Theorem reply_failure_keeps_save
  (env : Env) (body : gmap string json) (u only_text out : string)
  (e : exn) (s : State) :
  let data := conversation env (reads s) only_text out in
  let c1 := calls s ++ [AgentRun only_text] in
  normalize env body = Ok (JString u, only_text) →
  agent_run env (calls s) only_text = Ok out →
  document_refuses env u = None →
  firestore_refuses env c1 u data = None →
  say_refuses env (c1 ++ [FirestoreSet u data]) out = Some e →
  (handle_app_mention_events env body s).1 = Raise e ∧
  db (handle_app_mention_events env body s).2 !! u = Some data.
Proof.
  intros data c1 Hn Ha Hd Hf Hs. rewrite handle_run, Hn. cbv zeta.
  rewrite Ha. unfold document_id. rewrite Hd.
  fold c1 data. rewrite Hf, Hs. cbn.
  split; [done | apply lookup_insert_eq].
Qed.

(** The turn of the scenario when the reply cannot be sent. *)
Lemma reply_failure_keeps_save_witness :
  (handle_app_mention_events env_reply_down Sample.scenario11
     Sample.start).1 = Raise (ServiceError "channel_not_found") ∧
  db (handle_app_mention_events env_reply_down Sample.scenario11
        Sample.start).2 !! "U123"
    = Some (conversation env_reply_down 0 " hello" "konnichiwa").
Proof.
  apply (reply_failure_keeps_save env_reply_down Sample.scenario11
           "U123" " hello" "konnichiwa" (ServiceError "channel_not_found")
           Sample.start); reflexivity.
Defined.

(** ** The store, further *)

(** X12: of two accepted saves for the same user, whose identifier the
    client accepts, only the second shows: the store is afterwards what a
    single save of the second turn leaves, with a [history] of two entries,
    not four. *)
Theorem save_conversation_last_wins
  (env : Env) (id in1 out1 in2 out2 : string) (s : State) :
  let s1 := (save_conversation env (JString id) in1 out1 s).2 in
  let s2 := (save_conversation env (JString id) in2 out2 s1).2 in
  let data := conversation env (S (S (reads s))) in2 out2 in
  document_refuses env id = None →
  firestore_refuses env (calls s) id (conversation env (reads s) in1 out1)
    = None →
  firestore_refuses env (calls s1) id data = None →
  db s2 = <[id := data]> (db s) ∧
  (history <$> db s2 !! id) = Some (history data) ∧
  length (history data) = 2%nat.
Proof.
  intros s1 s2 data Hid H1 H2. subst s2.
  assert (s1 = {| db := <[id := conversation env (reads s) in1 out1]> (db s);
                  reads := S (S (reads s));
                  calls := calls s ++ [FirestoreSet id
                             (conversation env (reads s) in1 out1)] |})
    as Hs1.
  { subst s1. rewrite save_conversation_run by done. cbv zeta.
    by rewrite H1. }
  rewrite save_conversation_run by done. cbv zeta.
  replace (reads s1) with (S (S (reads s))) by by rewrite Hs1.
  fold data. rewrite H2. cbn. rewrite Hs1. cbn.
  rewrite insert_insert_eq. split_and!; [done| |done].
  by rewrite lookup_insert_eq.
Qed.

(** Two turns of [U123]. *)
Lemma save_conversation_last_wins_witness :
  db (save_conversation Sample.env (JString "U123") "again" "mata"
        (save_conversation Sample.env (JString "U123") "hi" "ok"
           Sample.start).2).2
  = <[ "U123" := conversation Sample.env 2 "again" "mata" ]> (db Sample.start).
Proof.
  apply (save_conversation_last_wins Sample.env "U123" "hi" "ok"
           "again" "mata" Sample.start); reflexivity.
Defined.

(** ** The entry point and sequences of requests *)

Section Effects.

Variable env : Env.

(** [slack_bot], in one step. *)
Lemma slack_bot_run (request : Request) (s : State) :
  slack_bot env request s =
    match get_json request with
    | Raise e => (Raise e, s)
    | Ok (JObject body) =>
        if eq_str (body !! "type") "url_verification" then
          match body !! "challenge" with
          | Some challenge =>
              (Ok (RTuple
                     (json_dumps env (JObject {[ "challenge" := challenge ]}))
                     200 {[ "Content-Type" := "application/json" ]}), s)
          | None => (Raise (KeyError "challenge"), s)
          end
        else if truthy (headers_get (headers request) "x-slack-retry-num")
        then (Ok (RDict (no_need_to_resend env)), s)
        else if bolt_routes env request then
          (Ok (RBolt (ListenerRan (handle_app_mention_events env body s).1)),
           (handle_app_mention_events env body s).2)
        else (Ok (RBolt NotRouted), s)
    | Ok _ => (Raise (AttributeError "get"), s)
    end.
Proof.
  unfold slack_bot, bind, lift, ret, handler_handle.
  destruct (get_json request) as [[| | | | | |body]|e]; try done.
  cbn [dict_get subscript].
  destruct (eq_str (body !! "type") "url_verification").
  { by destruct (body !! "challenge"). }
  destruct (truthy _); [done|].
  destruct (bolt_routes env request); [|done].
  by destruct (handle_app_mention_events env body s).
Qed.

(** What a request can do to the state: nothing, or what the turn of its
    body does. *)
Lemma slack_bot_state (request : Request) (s : State) :
  (slack_bot env request s).2 = s ∨
  ∃ body, get_json request = Ok (JObject body) ∧
          eq_str (body !! "type") "url_verification" = false ∧
          truthy (headers_get (headers request) "x-slack-retry-num") = false ∧
          bolt_routes env request = true ∧
          (slack_bot env request s).2
            = (handle_app_mention_events env body s).2.
Proof.
  rewrite slack_bot_run.
  destruct (get_json request) as [[| | | | | |body]|e]; try by left.
  destruct (eq_str (body !! "type") "url_verification") eqn:Hty.
  { left. by destruct (body !! "challenge"). }
  destruct (truthy _) eqn:Hretry; [by left|].
  destruct (bolt_routes env request) eqn:Hroute; [|by left].
  right. by exists body.
Qed.

(** What a turn does to the state. *)
Lemma handle_state (body : gmap string json) (s : State) :
  let s' := (handle_app_mention_events env body s).2 in
  (∃ e, normalize env body = Raise e ∧ s' = s) ∨
  (∃ user only_text made,
     normalize env body = Ok (user, only_text) ∧
     calls s' = calls s ++ AgentRun only_text :: made ∧
     step_of <$> made `prefix_of` [StepStore; StepReply] ∧
     agent_calls made = [] ∧
     (db s' = db s ∨
      ∃ id out, db s' = <[id := conversation env (reads s) only_text out]>
                          (db s))).
Proof.
  intros s'. subst s'. rewrite handle_run.
  destruct (normalize env body) as [[user only_text]|e] eqn:Hn;
    [right | left; by exists e].
  exists user, only_text. cbv zeta.
  destruct (agent_run env (calls s) only_text) as [out|e].
  2: { exists []. split_and!; [done..| |done|by left].
       by exists [StepStore; StepReply]. }
  destruct (document_id env user _) as [id|e].
  2: { exists []. split_and!; [done..| |done|by left].
       by exists [StepStore; StepReply]. }
  destruct (firestore_refuses env _ id _).
  - eexists [_]. cbn. rewrite <-(assoc_L (++)).
    split_and!; [done..| |done|by left]. by exists [StepReply].
  - eexists [_; _]. cbn. rewrite <-!(assoc_L (++)).
    split_and!; [done..|]. right. by exists id, out.
Qed.

Lemma serve_app (rs1 rs2 : list Request) (s : State) :
  serve env (rs1 ++ rs2) s = serve env rs2 (serve env rs1 s).
Proof. unfold serve. apply foldl_app. Qed.

Lemma serve_cons (request : Request) (rs : list Request) (s : State) :
  serve env (request :: rs) s = serve env rs (slack_bot env request s).2.
Proof. done. Qed.

Lemma agent_calls_app (cs1 cs2 : list Call) :
  agent_calls (cs1 ++ cs2) = agent_calls cs1 ++ agent_calls cs2.
Proof. apply omap_app. Qed.

Lemma agent_calls_agent (t : string) (cs : list Call) :
  agent_calls (AgentRun t :: cs) = t :: agent_calls cs.
Proof. done. Qed.

Lemma one_turn_conversation (n : nat) (user_input bot_output : string) :
  one_turn (conversation env n user_input bot_output).
Proof. by eexists _, _. Qed.

End Effects.

(** X13: a body that parses to something else than an object (an array, a
    string, a number, [null]) makes [slack_bot] raise [AttributeError] at
    [body.get], whatever the headers: not even a retried delivery is
    acknowledged, and the state is as before. *)
Theorem slack_bot_not_dict
  (env : Env) (request : Request) (v : json) (s : State) :
  get_json request = Ok v →
  (∀ body, v ≠ JObject body) →
  slack_bot env request s = (Raise (AttributeError "get"), s).
Proof.
  intros Hv Hobj. rewrite slack_bot_run, Hv.
  destruct v; try done. by destruct (Hobj kvs).
Qed.

(** An array, delivered again. *)
Lemma slack_bot_not_dict_witness :
  truthy (headers_get (headers array_body) "x-slack-retry-num") = true ∧
  slack_bot Sample.env array_body Sample.start
  = (Raise (AttributeError "get"), Sample.start).
Proof.
  split; [reflexivity|].
  apply (slack_bot_not_dict Sample.env array_body (JArray []));
    [reflexivity|]. intros body. discriminate.
Defined.

(** X14: [slack_bot] leaves the state as it is (no call of the agent, no
    write, no reply, no reading of the clock) unless the body is an object
    that is no handshake, the retry header is absent or empty, the Bolt
    adapter routes the request and the event has its user and its text. *)
Theorem slack_bot_changes_state_only_for_events
  (env : Env) (request : Request) (s : State) :
  (slack_bot env request s).2 ≠ s →
  ∃ body user only_text,
    get_json request = Ok (JObject body) ∧
    eq_str (body !! "type") "url_verification" = false ∧
    truthy (headers_get (headers request) "x-slack-retry-num") = false ∧
    bolt_routes env request = true ∧
    normalize env body = Ok (user, only_text).
Proof.
  intros Hs.
  destruct (slack_bot_state env request s)
    as [?|(body & Hb & Hty & Hretry & Hroute & Hrun)]; [done|].
  destruct (handle_state env body s)
    as [(e & _ & He)|(user & only_text & _ & Hn & _)]; [congruence|].
  by exists body, user, only_text.
Qed.

(** The sample message without a retry header. *)
Lemma slack_bot_changes_state_only_for_events_witness :
  ∃ body user only_text,
    get_json replayed = Ok (JObject body) ∧
    eq_str (body !! "type") "url_verification" = false ∧
    truthy (headers_get (headers replayed) "x-slack-retry-num") = false ∧
    bolt_routes Sample.env replayed = true ∧
    normalize Sample.env body = Ok (user, only_text).
Proof.
  apply (slack_bot_changes_state_only_for_events Sample.env replayed
           Sample.start).
  intros H. apply (f_equal reads) in H. vm_compute in H. discriminate H.
Defined.

(** X15: one request makes at most one call of the agent, at most one
    write and at most one reply, in that order: the log grows by a prefix
    of agent, store, reply. *)
Theorem slack_bot_steps_in_order
  (env : Env) (request : Request) (s : State) :
  calls (slack_bot env request s).2
    = calls s ++ calls_of (slack_bot env request) s ∧
  step_of <$> calls_of (slack_bot env request) s
    `prefix_of` [StepAgent; StepStore; StepReply].
Proof.
  unfold calls_of.
  destruct (slack_bot_state env request s)
    as [->|(body & _ & _ & _ & _ & ->)].
  { rewrite drop_all, app_nil_r. split; [done|]. by eexists. }
  destruct (handle_state env body s)
    as [(e & _ & ->)|(user & only_text & made & _ & -> & Hp & _)].
  { rewrite drop_all, app_nil_r. split; [done|]. by eexists. }
  rewrite drop_app_length. split; [done|].
  cbn. by apply prefix_cons.
Qed.

(** X16: whatever requests are served, in whatever order and with whatever
    outcome, every document of the store keeps the shape of a single turn
    recorded twice, provided the store had it at the beginning. *)
Theorem serve_one_turn_each
  (env : Env) (requests : list Request) (s : State) :
  one_turn_each (db s) → one_turn_each (db (serve env requests s)).
Proof.
  revert s. induction requests as [|request rs IH]; intros s Hs; [done|].
  rewrite serve_cons. apply IH.
  destruct (slack_bot_state env request s)
    as [->|(body & _ & _ & _ & _ & ->)]; [done|].
  destruct (handle_state env body s)
    as [(e & _ & ->)|(user & only_text & made & _ & _ & _ & _ & Hdb)];
    [done|].
  destruct Hdb as [->|(id & out & ->)]; [done|].
  intros id' d. rewrite lookup_insert. case_decide.
  - intros [= <-]. apply one_turn_conversation.
  - apply Hs.
Qed.

(** The sample message served twice, from the empty store. *)
Lemma serve_one_turn_each_witness :
  one_turn_each (db (serve Sample.env [replayed; replayed] Sample.start)).
Proof.
  apply (serve_one_turn_each Sample.env [replayed; replayed] Sample.start).
  intros id d H. change ((∅ : gmap string Document) !! id = Some d) in H.
  by rewrite lookup_empty in H.
Defined.

(** X17: nothing recognizes an event that was served before: the same
    well-formed message delivered [n] times without a retry header calls
    the agent [n] times on the same text. *)
Theorem serve_replay
  (env : Env) (request : Request) (body : gmap string json) (user : json)
  (only_text : string) (n : nat) (s : State) :
  get_json request = Ok (JObject body) →
  eq_str (body !! "type") "url_verification" = false →
  truthy (headers_get (headers request) "x-slack-retry-num") = false →
  bolt_routes env request = true →
  normalize env body = Ok (user, only_text) →
  agent_calls (calls (serve env (replicate n request) s))
  = agent_calls (calls s) ++ replicate n only_text.
Proof.
  intros Hb Hty Hretry Hroute Hn. revert s.
  induction n as [|n IH]; intros s; [by rewrite app_nil_r|].
  cbn [replicate]. rewrite serve_cons, IH.
  rewrite slack_bot_run, Hb, Hty, Hretry, Hroute. cbn [snd].
  destruct (handle_state env body s)
    as [(e & He & _)|(user' & t' & made & Hn' & -> & _ & Hmade & _)];
    [congruence|].
  rewrite Hn in Hn'. simplify_eq.
  rewrite agent_calls_app, agent_calls_agent, Hmade.
  by rewrite <-(assoc_L (++)).
Qed.

(** The sample message, three times. *)
Lemma serve_replay_witness :
  agent_calls (calls (serve Sample.env (replicate 3 replayed) Sample.start))
  = ["hello"; "hello"; "hello"].
Proof.
  apply (serve_replay Sample.env replayed
           {[ "type" := JString "event_callback";
              "event" := JObject {[ "type" := JString "message";
                                    "user" := JString "U123";
                                    "text" := JString "hello" ]} ]}
           (JString "U123") "hello" 3 Sample.start); reflexivity.
Defined.

(** X18: a delivery that carries a non-empty retry header, and whose body
    is an object that is no handshake, can be taken out of any sequence of
    requests: what is served before and after it ends in the same state. *)
Theorem serve_skips_retries
  (env : Env) (rs1 rs2 : list Request) (request : Request)
  (body : gmap string json) (s : State) :
  get_json request = Ok (JObject body) →
  eq_str (body !! "type") "url_verification" = false →
  truthy (headers_get (headers request) "x-slack-retry-num") = true →
  serve env (rs1 ++ request :: rs2) s = serve env (rs1 ++ rs2) s.
Proof.
  intros Hb Hty Hretry. rewrite !serve_app, serve_cons.
  by rewrite slack_bot_run, Hb, Hty, Hretry.
Qed.

(** A message, its retried delivery, and a second message. *)
Lemma serve_skips_retries_witness :
  serve Sample.env ([replayed] ++ Sample.retried :: [replayed]) Sample.start
  = serve Sample.env ([replayed] ++ [replayed]) Sample.start.
Proof.
  apply (serve_skips_retries Sample.env [replayed] [replayed] Sample.retried
           {[ "type" := JString "event_callback";
              "event" := JObject {[ "type" := JString "message";
                                    "user" := JString "U123";
                                    "text" := JString "hello" ]} ]}
           Sample.start); reflexivity.
Defined.

(** X19: the agent is called at most once for each request served. *)
Theorem serve_agent_calls_bound
  (env : Env) (requests : list Request) (s : State) :
  (length (agent_calls (calls (serve env requests s)))
   ≤ length (agent_calls (calls s)) + length requests)%nat.
Proof.
  revert s. induction requests as [|request rs IH]; intros s; [simpl; lia|].
  rewrite serve_cons. etrans; [apply IH|]. cbn [length].
  destruct (slack_bot_state env request s)
    as [->|(body & _ & _ & _ & _ & ->)]; [lia|].
  destruct (handle_state env body s)
    as [(e & _ & ->)|(user & t & made & _ & -> & _ & Hmade & _)]; [lia|].
  rewrite agent_calls_app, length_app, agent_calls_agent, Hmade.
  simpl. lia.
Qed.
